(** * Performance-adaptive animation layer: a shallow embedding

  The JavaScript classes [ParticleSystem], [PerformanceMonitor] and
  [AnimationManager] are embedded as Rocq records and functions.

  - JavaScript numbers are IEEE 754 binary64 values: they are modelled by
    Rocq's primitive [float], whose operations are the binary64 ones, so
    every arithmetic expression of the source is evaluated bit for bit.
    Counters that are only incremented, reset and compared with small
    integer literals are kept in [Z].
  - JavaScript strings are modelled by [string]; a character is one code
    unit in the range 0..255.
  - [this] becomes an explicit record that every method takes and returns;
    readings of [performance.now()], the outcome of browser probes and the
    draws of [Math.random()] are explicit arguments.
  - [console.log], [console.warn] and [console.error] have no effect on
    the state and are left out. *)

From Stdlib Require Import ZArith NArith List String Ascii Bool Lia.
From Stdlib Require Import PrimFloat FloatOps SpecFloat Uint63.
Import ListNotations.

Set Warnings "-inexact-float".

(* ================================================================== *)
(** ** The JavaScript host: strings, numbers, objects, browser globals *)
(* ================================================================== *)

Module Js.

Open Scope string_scope.

(** *** Strings *)

(** [String.prototype.toLowerCase] on code units 0..255: the letters A-Z
    and the Latin-1 capitals U+00C0..U+00DE (the multiplication sign
    U+00D7 apart) move 32 places up, everything else is unchanged. *)
Definition lowerChar (c : ascii) : ascii :=
  let n := N_of_ascii c in
  if ((65 <=? n) && (n <=? 90))%N
     || ((192 <=? n) && (n <=? 222) && negb (n =? 215))%N
  then ascii_of_N (n + 32) else c.

Fixpoint toLowerCase (s : string) : string :=
  match s with
  | EmptyString => EmptyString
  | String c r => String (lowerChar c) (toLowerCase r)
  end.

(** [drop n s] is [s.slice(n)]. *)
Fixpoint drop (n : nat) (s : string) : string :=
  match n, s with
  | O, _ => s
  | S _, EmptyString => EmptyString
  | S k, String _ r => drop k r
  end.

(** [includes w s]: the literal [w] occurs somewhere in [s]; this is what
    an unanchored regular expression made of the literal [w] tests. *)
Fixpoint includes (w s : string) : bool :=
  String.prefix w s
  || match s with
     | EmptyString => false
     | String _ r => includes w r
     end.

(** [RegExp.prototype.test] for an alternation of literals
    [/w1|w2|...|wn/]. *)
Definition testAnyOf (ws : list string) (s : string) : bool :=
  existsb (fun w => includes w s) ws.

(** The line terminators among the code units 0..255: [.] in a regular
    expression matches every character but these. *)
Definition isLineTerminator (c : ascii) : bool :=
  (c =? "010")%char || (c =? "013")%char.

(** [dotStarThen w s]: [/.*w/] matches at the very start of [s], for a
    literal [w] free of line terminators: [w] starts at some offset that is
    reached without crossing a line terminator. *)
Fixpoint dotStarThen (w s : string) : bool :=
  String.prefix w s
  || match s with
     | EmptyString => false
     | String c r => negb (isLineTerminator c) && dotStarThen w r
     end.

(** *** Numbers *)

Open Scope float_scope.

(** JavaScript relational operators on numbers; every comparison with NaN
    is false. *)
Definition lt (x y : float) : bool := PrimFloat.ltb x y.
Definition gt (x y : float) : bool := PrimFloat.ltb y x.
Definition le (x y : float) : bool := PrimFloat.leb x y.
Definition ge (x y : float) : bool := PrimFloat.leb y x.

(** The number value of a non-negative integer below 2^53 (an array
    length). *)
Definition ofNat (n : nat) : float :=
  PrimFloat.of_uint63 (Uint63.of_Z (Z.of_nat n)).

Definition ofZ (z : Z) : float :=
  if (z <? 0)%Z
  then - PrimFloat.of_uint63 (Uint63.of_Z (- z))
  else PrimFloat.of_uint63 (Uint63.of_Z z).

(** [Math.round]: the nearest integer, ties towards +infinity.  A finite
    value with a non-negative exponent is an integer already; otherwise
    the value is [n / d] with [d = 2^(-e)], and the result is
    [floor ((2n + d) / 2d)], which is below 2^53 in absolute value.  A
    negative argument that rounds to zero gives -0. *)
Definition Math_round (x : float) : float :=
  match Prim2SF x with
  | S754_finite s m e =>
      if (0 <=? e)%Z then x
      else
        let n := cond_Zopp s (Zpos m) in
        let d := (2 ^ (- e))%Z in
        let r := ((2 * n + d) / (2 * d))%Z in
        if (r =? 0)%Z then (if s then neg_zero else zero) else ofZ r
  | _ => x
  end.

(** [Math.fround]: rounding to the nearest binary32 value (ties to even),
    which is what a store into a [Float32Array] does. *)
Definition Math_fround (x : float) : float :=
  match Prim2SF x with
  | S754_finite s m e =>
      SF2Prim (binary_normalize 24 128 (cond_Zopp s (Zpos m)) e s)
  | _ => x
  end.

(** *** Typed arrays *)

(** A [Float32Array] is a list of numbers.  Reading past the end gives
    [undefined], which every arithmetic operator turns into NaN; writing
    past the end is ignored; a write rounds to binary32. *)
Definition Float32Array := list float.

Definition aget (a : Float32Array) (i : nat) : float := nth i a nan.

Fixpoint aset (a : Float32Array) (i : nat) (v : float) : Float32Array :=
  match a, i with
  | [], _ => []
  | _ :: r, O => Math_fround v :: r
  | x :: r, S k => x :: aset r k v
  end.

(** *** Property lookup on an object literal *)

(** The names every object literal inherits from [Object.prototype]; each
    of them resolves to a function (or, for [__proto__], to the prototype
    object), all of which are truthy. *)
Definition objectPrototypeNames : list string :=
  [ "constructor"; "hasOwnProperty"; "isPrototypeOf";
    "propertyIsEnumerable"; "toLocaleString"; "toString"; "valueOf";
    "__proto__"; "__defineGetter__"; "__defineSetter__";
    "__lookupGetter__"; "__lookupSetter__" ]%string.

(** The result of [obj[key]] for an object literal whose own properties
    all hold values of type [V]. *)
Inductive Lookup (V : Type) : Type :=
| Own (v : V)
| Inherited (name : string)
| Undefined.
Arguments Own {V} v.
Arguments Inherited {V} name.
Arguments Undefined {V}.

Fixpoint assoc {V : Type} (own : list (string * V)) (key : string)
  : option V :=
  match own with
  | [] => None
  | (k, v) :: r => if String.eqb k key then Some v else assoc r key
  end.

Definition getProp {V : Type} (own : list (string * V)) (key : string)
  : Lookup V :=
  match assoc own key with
  | Some v => Own v
  | None =>
      if existsb (String.eqb key) objectPrototypeNames
      then Inherited key else Undefined
  end.

Definition truthy {V : Type} (l : Lookup V) : bool :=
  match l with
  | Own _ | Inherited _ => true
  | Undefined => false
  end.

(** *** Browser globals *)

(** What [canvas.getContext] and [gl.createShader] do when
    [detectWebGLSupport] probes them. *)
Inductive WebGLProbe : Type :=
| ProbeThrows
| NoContext
| Context (vertexShader fragmentShader : bool).

(** [matchMedia] is [None] when [window.matchMedia] is missing, and
    otherwise holds [matches] of the query
    [(prefers-reduced-motion: reduce)]. *)
Record Browser : Type := mkBrowser {
  userAgent : string;
  innerWidth : float;
  webgl : WebGLProbe;
  matchMedia : option bool
}.

(** *** More of [Math], array indexing and truthiness *)

(** [Math.floor]: the largest integer not above the argument.  A finite
    value with a negative exponent is [n / d] with [d = 2^(-e)], and its
    floor is below 2^53 in absolute value; infinities, NaN and both zeros
    are returned as they are. *)
Definition Math_floor (x : float) : float :=
  match Prim2SF x with
  | S754_finite s m e =>
      if (0 <=? e)%Z then x
      else ofZ (cond_Zopp s (Zpos m) / 2 ^ (- e))%Z
  | _ => x
  end.

(** [array[k]] for a number [k]: the element when [k] is an integer index
    inside the array (-0 counts as 0), [undefined] otherwise. *)
Definition elementAt {A : Type} (l : list A) (k : float) : option A :=
  match Prim2SF k with
  | S754_zero _ => nth_error l 0
  | S754_finite false m e =>
      if (0 <=? e)%Z then
        let z := (Zpos m * 2 ^ e)%Z in
        if (z <? Z.of_nat (List.length l))%Z
        then nth_error l (Z.to_nat z) else None
      else if (Zpos m mod 2 ^ (- e) =? 0)%Z
           then nth_error l (Z.to_nat (Zpos m / 2 ^ (- e)))
           else None
  | _ => None
  end.

(** A number is falsy when it is 0, -0 or NaN. *)
Definition truthyNumber (x : float) : bool :=
  negb (PrimFloat.eqb x 0 || PrimFloat.is_nan x).

End Js.

(* ================================================================== *)
(** ** Device classification (both copies of [detectDeviceType])        *)
(* ================================================================== *)

Module DeviceRegex.

Import Js.
Open Scope string_scope.

(** [/android|webos|iphone|ipad|ipod|blackberry|iemobile|opera mini/] *)
Definition mobilePattern (s : string) : bool :=
  testAnyOf [ "android"; "webos"; "iphone"; "ipad"; "ipod"; "blackberry";
              "iemobile"; "opera mini" ] s.

(** [/ipad|android(?!.*mobile)/]: at some position either [ipad] starts,
    or [android] starts and [.*mobile] does not match right after it. *)
Fixpoint tabletPattern (s : string) : bool :=
  String.prefix "ipad" s
  || (String.prefix "android" s && negb (dotStarThen "mobile" (drop 7 s)))
  || match s with
     | EmptyString => false
     | String _ r => tabletPattern r
     end.

End DeviceRegex.

(* ================================================================== *)
(** ** ParticleSystem                                                   *)
(* ================================================================== *)

Module ParticleSystem.

Import Js.
Open Scope float_scope.

Record Config : Type := mkConfig {
  particleCount : nat;
  sizeMin : float;
  sizeMax : float;
  speedMin : float;
  speedMax : float;
  mouseInfluence : float
}.

Definition configs : list (string * Config) :=
  [ ("desktop"%string, mkConfig 2000 1 3 0.001 0.003 0.1);
    ("tablet"%string, mkConfig 1000 1 2.5 0.001 0.0025 0.08);
    ("mobile"%string, mkConfig 500 0.8 2 0.0008 0.002 0.05) ].

Definition desktopConfig : Config := mkConfig 2000 1 3 0.001 0.003 0.1.

(** What [this.config] can hold: one of the configurations of the table,
    or the built-in value that a name inherited from [Object.prototype]
    resolves to ([Object] for 'constructor', a method for 'toString', ...).
    A built-in is truthy and has none of the properties of a
    configuration. *)
Inductive ConfigValue : Type :=
| DeviceConfig (c : Config)
| BuiltIn (name : string).

(** [getDeviceConfig]: [configs[deviceType] || configs.desktop]. *)
Definition getDeviceConfig (deviceType : string) : ConfigValue :=
  match getProp configs deviceType with
  | Own c => DeviceConfig c
  | Undefined => DeviceConfig desktopConfig
  | Inherited name => BuiltIn name
  end.

(** [this.config.particleCount]; [None] is [undefined]. *)
Definition particleCountOf (cfg : ConfigValue) : option nat :=
  match cfg with
  | DeviceConfig c => Some (particleCount c)
  | BuiltIn _ => None
  end.

(** The length of [new Float32Array(count * k)]: for [count] [undefined]
    the product is NaN and the array is empty. *)
Definition arrayLength (count : option nat) (k : nat) : nat :=
  match count with
  | Some n => (n * k)%nat
  | None => 0%nat
  end.

(** The three arrays [createParticleData] allocates together and
    [dispose] sets to [null] together. *)
Record ParticleData : Type := mkData {
  positions : Float32Array;
  velocities : Float32Array;
  originalPositions : Float32Array
}.

(** The [BufferGeometry]: its position attribute wraps the very array
    [positions], so only the [needsUpdate] flag is kept here. *)
Record Geometry : Type := mkGeometry { needsUpdate : bool }.

Record t : Type := mkParticleSystem {
  deviceType : string;
  config : ConfigValue;
  geometry : option Geometry;
  time : float;
  mousePosition : float * float;
  data : option ParticleData
}.

(** [createParticleData].  [rand k] is the k-th draw of [Math.random()];
    particle [i] consumes the draws [8i .. 8i+7] in source order: x, y, z,
    the three velocity components, the palette index and the size (the
    colour and size arrays play no part in [update] and are not kept). *)
Definition particleInit (cfg : Config) (rand : nat -> float) (i : nat)
  : (list float * list float) :=
  let r := fun k => rand (8 * i + k)%nat in
  let x := (r 0%nat - 0.5) * 20 in
  let y := (r 1%nat - 0.5) * 20 in
  let z := (r 2%nat - 0.5) * 10 in
  ( [ Math_fround x; Math_fround y; Math_fround z ],
    [ Math_fround ((r 3%nat - 0.5) * speedMax cfg);
      Math_fround ((r 4%nat - 0.5) * speedMax cfg);
      Math_fround ((r 5%nat - 0.5) * speedMax cfg) ] ).

(** With a built-in for [this.config] the count is [undefined]: the
    arrays are empty and the loop, whose test [i < count] is false at
    once, stores nothing and draws nothing. *)
Definition createParticleData (cfg : ConfigValue) (rand : nat -> float)
  : ParticleData :=
  match cfg with
  | DeviceConfig c =>
      let ps := map (particleInit c rand) (seq 0 (particleCount c)) in
      let pos := flat_map fst ps in
      mkData pos (flat_map snd ps) pos
  | BuiltIn _ => mkData [] [] []
  end.

(** The constructor followed by [init]. *)
Definition new (deviceType : string) (rand : nat -> float) : t :=
  let cfg := getDeviceConfig deviceType in
  mkParticleSystem deviceType cfg (Some (mkGeometry false)) 0
    (0, 0) (Some (createParticleData cfg rand)).

(** The [mousemove] listener installed by [addEventListeners]. *)
Definition updateMousePosition
  (clientX clientY windowWidth windowHeight : float) (p : t) : t :=
  mkParticleSystem (deviceType p) (config p) (geometry p) (time p)
    ( (clientX / windowWidth) * 2 - 1,
      - (clientY / windowHeight) * 2 + 1 )
    (data p).

(** *** [update], one particle at a time *)

(** "Floating movement": the three [+=] on the position of particle [i]. *)
Definition drift (vel : Float32Array) (i : nat) (pos : Float32Array)
  : Float32Array :=
  let i3 := (i * 3)%nat in
  let pos := aset pos i3 (aget pos i3 + aget vel i3) in
  let pos :=
    aset pos (i3 + 1) (aget pos (i3 + 1)%nat + aget vel (i3 + 1)%nat) in
  aset pos (i3 + 2) (aget pos (i3 + 2)%nat + aget vel (i3 + 2)%nat).

(** [dx], [dy] and [distance] as [update] computes them for particle [i]. *)
Definition offsetX (mouse : float * float) (i : nat) (pos : Float32Array)
  : float :=
  let mouseX := fst mouse * 10 in
  aget pos (i * 3) - mouseX.

Definition offsetY (mouse : float * float) (i : nat) (pos : Float32Array)
  : float :=
  let mouseY := snd mouse * 10 in
  aget pos (i * 3 + 1) - mouseY.

Definition distance (mouse : float * float) (i : nat) (pos : Float32Array)
  : float :=
  let dx := offsetX mouse i pos in
  let dy := offsetY mouse i pos in
  PrimFloat.sqrt (dx * dx + dy * dy).

(** "Mouse interaction": the branch [if (distance < 3)]. *)
Definition repel (cfg : Config) (mouse : float * float) (i : nat)
  (pos : Float32Array) : Float32Array :=
  let i3 := (i * 3)%nat in
  let mouseInfluence := mouseInfluence cfg in
  let dx := offsetX mouse i pos in
  let dy := offsetY mouse i pos in
  let distance := distance mouse i pos in
  if lt distance 3 then
    let force := (3 - distance) * mouseInfluence in
    let pos := aset pos i3 (aget pos i3 + (dx / distance) * force) in
    aset pos (i3 + 1) (aget pos (i3 + 1)%nat + (dy / distance) * force)
  else pos.

(** "Boundary wrapping": the six conditional stores, in source order. *)
Definition wrap (i : nat) (pos : Float32Array) : Float32Array :=
  let i3 := (i * 3)%nat in
  let pos := if gt (aget pos i3) 10 then aset pos i3 (-10) else pos in
  let pos := if lt (aget pos i3) (-10) then aset pos i3 10 else pos in
  let pos :=
    if gt (aget pos (i3 + 1)) 10 then aset pos (i3 + 1) (-10) else pos in
  let pos :=
    if lt (aget pos (i3 + 1)) (-10) then aset pos (i3 + 1) 10 else pos in
  let pos :=
    if gt (aget pos (i3 + 2)) 5 then aset pos (i3 + 2) (-5) else pos in
  if lt (aget pos (i3 + 2)) (-5) then aset pos (i3 + 2) 5 else pos.

(** The body of the [for] loop. *)
Definition stepParticle (cfg : Config) (mouse : float * float)
  (vel : Float32Array) (pos : Float32Array) (i : nat) : Float32Array :=
  wrap i (repel cfg mouse i (drift vel i pos)).

(** [update(deltaTime)].  With a built-in for [this.config] the count is
    [undefined] and the loop does not run. *)
Definition update (deltaTime : float) (p : t) : t :=
  match geometry p, data p with
  | Some _, Some d =>
      let pos :=
        match config p with
        | DeviceConfig c =>
            let count := particleCount c in
            fold_left (stepParticle c (mousePosition p) (velocities d))
              (seq 0 count) (positions d)
        | BuiltIn _ => positions d
        end in
      mkParticleSystem (deviceType p) (config p) (Some (mkGeometry true))
        (time p + deltaTime) (mousePosition p)
        (Some (mkData pos (velocities d) (originalPositions d)))
  | _, _ => p
  end.

(** [getParticlePositions]. *)
Definition getParticlePositions (p : t) : list float :=
  match data p with
  | Some d => positions d
  | None => []
  end.

(** [dispose] (the scene, material and listener bookkeeping apart). *)
Definition dispose (p : t) : t :=
  mkParticleSystem (deviceType p) (config p) (geometry p) (time p)
    (mousePosition p) None.

(** *** Colours, and what the tests read *)

Record Color : Type := mkColor { red : float; green : float; blue : float }.

(** The literal [colorPalette] of [createParticleData]. *)
Definition colorPalette : list Color :=
  [ mkColor 0.478 0.608 0.463;
    mkColor 0.353 0.478 0.337;
    mkColor 0.604 0.722 0.588;
    mkColor 0.416 0.545 0.400 ].

(** [colorPalette[Math.floor(Math.random() * colorPalette.length)]] for one
    draw; [None] is [undefined]. *)
Definition pickColor (draw : float) : option Color :=
  elementAt colorPalette
    (Math_floor (draw * ofNat (List.length colorPalette))).

(** The three stores into the [Float32Array] [colors]. *)
Definition storeColor (c : Color) : Color :=
  mkColor (Math_fround (red c)) (Math_fround (green c))
    (Math_fround (blue c)).

(** The colour part of [createParticleData]: particle [i] takes its colour
    from the draw [8i + 6].  Reading [color.r] of [undefined] throws, and
    the constructor with it: that is [None]. *)
Fixpoint createColors (rand : nat -> float) (first count : nat)
  : option (list Color) :=
  match count with
  | O => Some []
  | S k =>
      match pickColor (rand (8 * first + 6)%nat) with
      | None => None
      | Some c =>
          match createColors rand (S first) k with
          | None => None
          | Some r => Some (storeColor c :: r)
          end
      end
  end.

(** [isColorInPalette]. *)
Definition isColorInPalette (r g b : float) : bool :=
  let tolerance := 0.01 in
  existsb
    (fun color =>
       lt (PrimFloat.abs (red color - r)) tolerance
       && lt (PrimFloat.abs (green color - g)) tolerance
       && lt (PrimFloat.abs (blue color - b)) tolerance)
    [ mkColor 0.478 0.608 0.463;
      mkColor 0.353 0.478 0.337;
      mkColor 0.604 0.722 0.588;
      mkColor 0.416 0.545 0.400 ].

(** [getParticleCount]; [None] is [undefined]. *)
Definition getParticleCount (p : t) : option nat :=
  particleCountOf (config p).

End ParticleSystem.

(* ================================================================== *)
(** ** PerformanceMonitor                                               *)
(* ================================================================== *)

Module PerformanceMonitor.

Import Js DeviceRegex.
Open Scope string_scope.
Open Scope float_scope.

(** The [options] object after the spread [{ defaults, ...options }]. *)
Record Options : Type := mkOptions {
  targetFPS : list (string * float);
  performanceThreshold : float;
  qualityAdjustmentDelay : float
}.

(** What a caller may pass: every key is optional. *)
Record OptionsArg : Type := mkOptionsArg {
  argTargetFPS : option (list (string * float));
  argPerformanceThreshold : option float;
  argQualityAdjustmentDelay : option float
}.

Definition noOptions : OptionsArg := mkOptionsArg None None None.

Definition defaultTargetFPS : list (string * float) :=
  [ ("desktop", 60); ("tablet", 45); ("mobile", 30) ].

Definition defaultOptions : Options :=
  mkOptions defaultTargetFPS 0.8 2000.

Definition orDefault {A : Type} (o : option A) (d : A) : A :=
  match o with Some a => a | None => d end.

Definition mergeOptions (o : OptionsArg) : Options :=
  mkOptions
    (orDefault (argTargetFPS o) (targetFPS defaultOptions))
    (orDefault (argPerformanceThreshold o)
       (performanceThreshold defaultOptions))
    (orDefault (argQualityAdjustmentDelay o)
       (qualityAdjustmentDelay defaultOptions)).

Record QualitySettings : Type := mkSettings {
  particles : Z;
  shadows : bool;
  antialias : bool
}.

(** [this.qualityLevels]: assigned once in the constructor, never
    changed. *)
Definition qualityLevels : list (string * QualitySettings) :=
  [ ("high", mkSettings 2000 true true);
    ("medium", mkSettings 1000 false true);
    ("low", mkSettings 500 false false) ].

(** What [getQualitySettings] can return: a settings object, or the
    built-in that a name inherited from [Object.prototype] resolves to. *)
Inductive SettingsValue : Type :=
| Settings (q : QualitySettings)
| Builtin (name : string).

(** The events handed to [window.dispatchEvent]. *)
Inductive CustomEvent : Type :=
| AnimationQualityChange (quality : string) (settings : SettingsValue)
| AnimationVisibilityChange (visible : bool).

(** The fields of [this].  [dispatched] is not a field of the class: it
    records, most recent first, the events given to
    [window.dispatchEvent]. *)
Record t : Type := mkMonitor {
  options : Options;
  frameCount : float;
  lastTime : float;
  currentFPS : float;
  fpsHistory : list float;
  maxHistoryLength : nat;
  currentQuality : string;
  deviceType : string;
  webGLSupported : bool;
  reducedMotionPreferred : bool;
  lastQualityAdjustment : float;
  performanceWarningCount : Z;
  initStartTime : float;
  firstFrameTime : option float;
  dispatched : list CustomEvent
}.

Definition withQuality (q : string) (m : t) : t :=
  mkMonitor (options m) (frameCount m) (lastTime m) (currentFPS m)
    (fpsHistory m) (maxHistoryLength m) q (deviceType m)
    (webGLSupported m) (reducedMotionPreferred m)
    (lastQualityAdjustment m) (performanceWarningCount m)
    (initStartTime m) (firstFrameTime m) (dispatched m).

Definition withReducedMotion (r : bool) (m : t) : t :=
  mkMonitor (options m) (frameCount m) (lastTime m) (currentFPS m)
    (fpsHistory m) (maxHistoryLength m) (currentQuality m) (deviceType m)
    (webGLSupported m) r
    (lastQualityAdjustment m) (performanceWarningCount m)
    (initStartTime m) (firstFrameTime m) (dispatched m).

Definition withWarnings (c : Z) (m : t) : t :=
  mkMonitor (options m) (frameCount m) (lastTime m) (currentFPS m)
    (fpsHistory m) (maxHistoryLength m) (currentQuality m) (deviceType m)
    (webGLSupported m) (reducedMotionPreferred m)
    (lastQualityAdjustment m) c
    (initStartTime m) (firstFrameTime m) (dispatched m).

Definition withLastAdjustment (x : float) (m : t) : t :=
  mkMonitor (options m) (frameCount m) (lastTime m) (currentFPS m)
    (fpsHistory m) (maxHistoryLength m) (currentQuality m) (deviceType m)
    (webGLSupported m) (reducedMotionPreferred m)
    x (performanceWarningCount m)
    (initStartTime m) (firstFrameTime m) (dispatched m).

Definition withHistory (h : list float) (m : t) : t :=
  mkMonitor (options m) (frameCount m) (lastTime m) (currentFPS m)
    h (maxHistoryLength m) (currentQuality m) (deviceType m)
    (webGLSupported m) (reducedMotionPreferred m)
    (lastQualityAdjustment m) (performanceWarningCount m)
    (initStartTime m) (firstFrameTime m) (dispatched m).

Definition dispatchEvent (e : CustomEvent) (m : t) : t :=
  mkMonitor (options m) (frameCount m) (lastTime m) (currentFPS m)
    (fpsHistory m) (maxHistoryLength m) (currentQuality m) (deviceType m)
    (webGLSupported m) (reducedMotionPreferred m)
    (lastQualityAdjustment m) (performanceWarningCount m)
    (initStartTime m) (firstFrameTime m) (e :: dispatched m).

(** [detectDeviceType] (src/unnamed/part_006). *)
Definition detectDeviceType (b : Browser) : string :=
  let userAgent := toLowerCase (userAgent b) in
  let isMobile := mobilePattern userAgent in
  let isTablet :=
    tabletPattern userAgent
    || (ge (innerWidth b) 768 && le (innerWidth b) 1024) in
  if isMobile && negb isTablet then "mobile"
  else if isTablet then "tablet"
  else "desktop".

(** [detectWebGLSupport]: no context, a shader that cannot be created or
    an exception all give [false]. *)
Definition detectWebGLSupport (b : Browser) : bool :=
  match webgl b with
  | ProbeThrows => false
  | NoContext => false
  | Context vertexShader fragmentShader =>
      if negb vertexShader || negb fragmentShader then false else true
  end.

(** [detectReducedMotionPreference]. *)
Definition detectReducedMotionPreference (b : Browser) : bool :=
  match matchMedia b with
  | None => false
  | Some matches => matches
  end.

(** [setInitialQuality]. *)
Definition setInitialQuality (m : t) : t :=
  if negb (webGLSupported m) then withQuality "disabled" m
  else if reducedMotionPreferred m then withQuality "disabled" m
  else if (deviceType m =? "mobile")%string then withQuality "low" m
  else if (deviceType m =? "tablet")%string then withQuality "medium" m
  else withQuality "high" m.

(** The constructor.  [t0] and [t1] are its two readings of
    [performance.now()]. *)
Definition new (o : OptionsArg) (b : Browser) (t0 t1 : float) : t :=
  setInitialQuality
    (mkMonitor (mergeOptions o) 0 t0 60 [] 60 "high"
       (detectDeviceType b) (detectWebGLSupport b)
       (detectReducedMotionPreference b) 0 0%Z t1 None []).

(** [getQualitySettings]. *)
Definition getQualitySettings (m : t) : SettingsValue :=
  if (currentQuality m =? "disabled")%string
  then Settings (mkSettings 0 false false)
  else
    match getProp qualityLevels (currentQuality m) with
    | Own q => Settings q
    | Inherited name => Builtin name
    | Undefined => Settings (mkSettings 500 false false)
    end.

(** [emitQualityChange]; [window] and [window.dispatchEvent] exist in a
    browser, so the event is always dispatched. *)
Definition emitQualityChange (m : t) : t :=
  dispatchEvent
    (AnimationQualityChange (currentQuality m) (getQualitySettings m)) m.

(** [Array.prototype.indexOf] on [qualityOrder = ['high','medium','low']];
    -1 when absent. *)
Definition qualityOrder : list string := [ "high"; "medium"; "low" ].

Fixpoint indexOf (l : list string) (x : string) (from : Z) : Z :=
  match l with
  | [] => (-1)%Z
  | y :: r => if String.eqb y x then from else indexOf r x (from + 1)%Z
  end.

(** [reduceQuality]. *)
Definition reduceQuality (m : t) : t :=
  let currentIndex := indexOf qualityOrder (currentQuality m) 0%Z in
  if (currentIndex <? Z.of_nat (List.length qualityOrder) - 1)%Z then
    emitQualityChange
      (withQuality
         (nth (Z.to_nat (currentIndex + 1)) qualityOrder "undefined") m)
  else m.

(** [fpsHistory.slice(-5)] and the [reduce] that sums it. *)
Definition sliceLast (n : nat) (l : list float) : list float :=
  skipn (List.length l - n) l.

Definition sum (l : list float) : float :=
  fold_left (fun sum fps => sum + fps) l 0.

(** [targetFPS * performanceThreshold]; a key that is missing, or that is
    inherited from [Object.prototype], multiplies to NaN. *)
Definition threshold (m : t) : float :=
  match getProp (targetFPS (options m)) (deviceType m) with
  | Own targetFPS => targetFPS * performanceThreshold (options m)
  | _ => nan
  end.

Definition averageFPS (m : t) : float :=
  let recentFPS := sliceLast 5 (fpsHistory m) in
  sum recentFPS / ofNat (List.length recentFPS).

(** [checkPerformanceThreshold]; [currentTime] is its reading of
    [performance.now()]. *)
Definition checkPerformanceThreshold (currentTime : float) (m : t) : t :=
  if (currentQuality m =? "disabled")%string
     || (currentQuality m =? "low")%string
  then m
  else if lt (currentTime - lastQualityAdjustment m)
            (qualityAdjustmentDelay (options m))
  then m
  else if (5 <=? List.length (fpsHistory m))%nat then
    if lt (averageFPS m) (threshold m) then
      let m := withWarnings (performanceWarningCount m + 1) m in
      if (3 <=? performanceWarningCount m)%Z then
        withLastAdjustment currentTime (withWarnings 0 (reduceQuality m))
      else m
    else withWarnings 0 m
  else m.

(** [updateMetrics] in three parts.  [countFrame] is what every call
    does: it fills [firstFrameTime] once and increments [frameCount]. *)
Definition countFrame (currentTime : float) (m : t) : t :=
  mkMonitor (options m) (frameCount m + 1) (lastTime m) (currentFPS m)
    (fpsHistory m) (maxHistoryLength m) (currentQuality m)
    (deviceType m) (webGLSupported m) (reducedMotionPreferred m)
    (lastQualityAdjustment m) (performanceWarningCount m)
    (initStartTime m)
    (match firstFrameTime m with
     | None => Some currentTime
     | Some x => Some x
     end)
    (dispatched m).

(** [takeSample] is the body of [if (timeDelta >= 1000)] up to the call
    of [checkPerformanceThreshold]: the new FPS sample is pushed and the
    oldest one is shifted out once more than [maxHistoryLength] are
    held. *)
Definition takeSample (currentTime : float) (m : t) : t :=
  let timeDelta := currentTime - lastTime m in
  let currentFPS := Math_round ((frameCount m * 1000) / timeDelta) in
  let history := (fpsHistory m ++ [currentFPS])%list in
  let history :=
    if (maxHistoryLength m <? List.length history)%nat
    then tl history else history in
  mkMonitor (options m) 0 currentTime currentFPS history
    (maxHistoryLength m) (currentQuality m) (deviceType m)
    (webGLSupported m) (reducedMotionPreferred m)
    (lastQualityAdjustment m) (performanceWarningCount m)
    (initStartTime m) (firstFrameTime m) (dispatched m).

(** [updateMetrics]; [currentTime] is its own reading of
    [performance.now()], [checkTime] the one taken by
    [checkPerformanceThreshold] when the one-second mark is reached. *)
Definition updateMetrics (currentTime checkTime : float) (m : t) : t :=
  let m := countFrame currentTime m in
  let timeDelta := currentTime - lastTime m in
  if ge timeDelta 1000
  then checkPerformanceThreshold checkTime (takeSample currentTime m)
  else m.

(** [shouldEnableAnimations]. *)
Definition shouldEnableAnimations (m : t) : bool :=
  webGLSupported m && negb (reducedMotionPreferred m)
  && negb (currentQuality m =? "disabled")%string.

(** [onVisibilityChange]; [hidden] is [document.hidden]. *)
Definition onVisibilityChange (hidden : bool) (m : t) : t :=
  if hidden then dispatchEvent (AnimationVisibilityChange false) m
  else dispatchEvent (AnimationVisibilityChange true) m.

(** [onReducedMotionChange]; [matches] is [event.matches]. *)
Definition onReducedMotionChange (matches : bool) (m : t) : t :=
  let m := withReducedMotion matches m in
  let m :=
    if reducedMotionPreferred m then withQuality "disabled" m
    else setInitialQuality m in
  emitQualityChange m.

(** [setQuality]. *)
Definition setQuality (quality : string) (m : t) : t :=
  if (quality =? "disabled")%string || truthy (getProp qualityLevels quality)
  then emitQualityChange (withQuality quality m)
  else m.

(** [dispose] (listener removal apart). *)
Definition dispose (m : t) : t := withHistory [] m.

(** *** Reports *)

Record FallbackConfig : Type := mkFallback {
  fallbackType : string;
  reason : string;
  enableBasicAnimations : bool
}.

(** [getFallbackConfig]; [None] is [null]. *)
Definition getFallbackConfig (m : t) : option FallbackConfig :=
  if negb (webGLSupported m)
  then Some (mkFallback "css" "webgl_unsupported" true)
  else if reducedMotionPreferred m
  then Some (mkFallback "static" "reduced_motion_preferred" false)
  else None.

(** [getAverageFPS]. *)
Definition getAverageFPS (m : t) : float :=
  if (List.length (fpsHistory m) =? 0)%nat then currentFPS m
  else Math_round (sum (fpsHistory m) / ofNat (List.length (fpsHistory m))).

Record Metrics : Type := mkMetrics {
  metricsFps : float;
  metricsAverageFPS : float;
  metricsDeviceType : string;
  metricsQuality : string;
  metricsWebGLSupported : bool;
  metricsReducedMotionPreferred : bool;
  metricsLoadTime : option float;
  metricsTargetFPS : Lookup float;
  metricsPerformanceWarnings : Z
}.

(** [getMetrics].  [loadTime] is [null] while [firstFrameTime] is falsy:
    [null], but also a first frame stamped 0. *)
Definition getMetrics (m : t) : Metrics :=
  let loadTime :=
    match firstFrameTime m with
    | Some first =>
        if truthyNumber first then Some (first - initStartTime m) else None
    | None => None
    end in
  mkMetrics (currentFPS m) (getAverageFPS m) (deviceType m)
    (currentQuality m) (webGLSupported m) (reducedMotionPreferred m)
    loadTime (getProp (targetFPS (options m)) (deviceType m))
    (performanceWarningCount m).

(** *** Sessions *)

(** One call into a monitor from outside, with what the environment
    supplies to it; a session is a list of them, oldest first. *)
Inductive Event : Type :=
| UpdateMetrics (currentTime checkTime : float)
| CheckPerformanceThreshold (currentTime : float)
| ReduceQuality
| ReducedMotionChange (matches : bool)
| VisibilityChange (hidden : bool)
| SetQuality (quality : string)
| Dispose.

Definition step (m : t) (e : Event) : t :=
  match e with
  | UpdateMetrics currentTime checkTime =>
      updateMetrics currentTime checkTime m
  | CheckPerformanceThreshold currentTime =>
      checkPerformanceThreshold currentTime m
  | ReduceQuality => reduceQuality m
  | ReducedMotionChange matches => onReducedMotionChange matches m
  | VisibilityChange hidden => onVisibilityChange hidden m
  | SetQuality quality => setQuality quality m
  | Dispose => dispose m
  end.

Definition run (es : list Event) (m : t) : t := fold_left step es m.

End PerformanceMonitor.

(* ================================================================== *)
(** ** AnimationManager                                                 *)
(* ================================================================== *)

Module AnimationManager.

Import Js DeviceRegex.
Open Scope string_scope.
Open Scope float_scope.

(** Objects of the 3D library and of the DOM, and the two collaborators
    whose inner state the manager never reads, are tokens: the manager
    only tests them for [null] and calls their methods. *)
Inductive Canvas : Type := TheCanvas.
Inductive Scene : Type := TheScene.
Inductive Camera : Type := TheCamera.
Inductive Renderer : Type := TheRenderer.
Inductive InteractiveElements : Type := TheInteractiveElements.
Inductive ContentAnimations : Type := TheContentAnimations.

Record Options : Type := mkOptions {
  canvas : option Canvas;
  enablePerformanceMonitoring : bool
}.

Definition defaultOptions : Options := mkOptions None true.

Record t : Type := mkManager {
  options : Options;
  scene : option Scene;
  camera : option Camera;
  renderer : option Renderer;
  isInitialized : bool;
  isRunning : bool;
  animationId : option Z;
  particleSystem : option ParticleSystem.t;
  interactiveElements : option InteractiveElements;
  performanceMonitor : option PerformanceMonitor.t;
  contentAnimations : option ContentAnimations;
  frameCount : float;
  lastTime : float;
  fps : float;
  deviceType : string
}.

(** How a method call ends: with a return value, or with an exception
    that leaves the method. *)
Inductive Completion (A : Type) : Type :=
| Return (v : A)
| Throw.
Arguments Return {A} v.
Arguments Throw {A}.

(** [detectDeviceType] (src/js/animations/AnimationManager.js). *)
Definition detectDeviceType (b : Browser) : string :=
  let userAgent := toLowerCase (userAgent b) in
  let isMobile := mobilePattern userAgent in
  let isTablet :=
    tabletPattern userAgent
    || (ge (innerWidth b) 768 && le (innerWidth b) 1024) in
  if isMobile && negb isTablet then "mobile"
  else if isTablet then "tablet"
  else "desktop".

(** The constructor; [now] is its reading of [performance.now()]. *)
Definition new (o : Options) (b : Browser) (now : float) : t :=
  mkManager o None None None false false None None None None None
    0 now 60 (detectDeviceType b).

(** What the environment decides during [init]: the browser the
    performance monitor probes, its two clock readings, the draws of
    [Math.random()] for the particles, and which constructors throw. *)
Record InitEnv : Type := mkInitEnv {
  browser : Browser;
  monitorTime0 : float;
  monitorTime1 : float;
  rendererThrows : bool;
  random : nat -> float;
  particlesThrow : bool;
  interactiveThrows : bool;
  contentThrows : bool
}.

(** [init].  The monitor is created first; when animations are disabled
    the method returns [false] with only the monitor assigned; when the
    renderer cannot be created the outer [catch] returns [false] with
    scene and camera assigned; each of the three inner [try] blocks leaves
    its component [null] on failure. *)
Definition init (e : InitEnv) (a : t) : t * bool :=
  let pm :=
    PerformanceMonitor.new
      (PerformanceMonitor.mkOptionsArg
         (Some [ ("desktop", 60); ("tablet", 45); ("mobile", 30) ])
         None None)
      (browser e) (monitorTime0 e) (monitorTime1 e) in
  if negb (PerformanceMonitor.shouldEnableAnimations pm) then
    ( mkManager (options a) (scene a) (camera a) (renderer a)
        (isInitialized a) (isRunning a) (animationId a)
        (particleSystem a) (interactiveElements a) (Some pm)
        (contentAnimations a) (frameCount a) (lastTime a) (fps a)
        (deviceType a),
      false )
  else if rendererThrows e then
    ( mkManager (options a) (Some TheScene) (Some TheCamera) (renderer a)
        (isInitialized a) (isRunning a) (animationId a)
        (particleSystem a) (interactiveElements a) (Some pm)
        (contentAnimations a) (frameCount a) (lastTime a) (fps a)
        (deviceType a),
      false )
  else
    let ps :=
      if particlesThrow e then particleSystem a
      else
        Some (ParticleSystem.new (deviceType a) (random e)) in
    let ie :=
      if interactiveThrows e then interactiveElements a
      else Some TheInteractiveElements in
    let ca :=
      if contentThrows e then contentAnimations a
      else Some TheContentAnimations in
    ( mkManager (options a) (Some TheScene) (Some TheCamera)
        (Some TheRenderer) true (isRunning a) (animationId a)
        ps ie (Some pm) ca (frameCount a) (lastTime a) (fps a)
        (deviceType a),
      true ).

(** What the environment decides during one call of [animate]: the handle
    [requestAnimationFrame] returns and the readings of
    [performance.now()] taken by [animate], by [updateMetrics] (or by the
    legacy [updatePerformanceMetrics]) and by
    [checkPerformanceThreshold]. *)
Record Frame : Type := mkFrame {
  requestId : Z;
  frameTime : float;
  metricsTime : float;
  checkTime : float
}.

(** [updatePerformanceMetrics], the legacy sampler. *)
Definition updatePerformanceMetrics (currentTime : float) (a : t) : t :=
  let frameCount := frameCount a + 1 in
  if ge (currentTime - lastTime a) 1000 then
    mkManager (options a) (scene a) (camera a) (renderer a)
      (isInitialized a) (isRunning a) (animationId a) (particleSystem a)
      (interactiveElements a) (performanceMonitor a) (contentAnimations a)
      0 currentTime
      (Math_round ((frameCount * 1000) / (currentTime - lastTime a)))
      (deviceType a)
  else
    mkManager (options a) (scene a) (camera a) (renderer a)
      (isInitialized a) (isRunning a) (animationId a) (particleSystem a)
      (interactiveElements a) (performanceMonitor a) (contentAnimations a)
      frameCount (lastTime a) (fps a) (deviceType a).

(** [animate].  The last statement, [this.renderer.render(...)], throws a
    [TypeError] when the renderer is [null]. *)
Definition animate (f : Frame) (a : t) : t * Completion unit :=
  if negb (isRunning a) then (a, Return tt)
  else
    let deltaTime := (frameTime f - lastTime a) / 1000 in
    let ps :=
      match particleSystem a with
      | Some p => Some (ParticleSystem.update deltaTime p)
      | None => None
      end in
    let a :=
      mkManager (options a) (scene a) (camera a) (renderer a)
        (isInitialized a) (isRunning a) (Some (requestId f)) ps
        (interactiveElements a) (performanceMonitor a)
        (contentAnimations a) (frameCount a) (lastTime a) (fps a)
        (deviceType a) in
    let a :=
      match performanceMonitor a with
      | Some pm =>
          mkManager (options a) (scene a) (camera a) (renderer a)
            (isInitialized a) (isRunning a) (animationId a)
            (particleSystem a) (interactiveElements a)
            (Some (PerformanceMonitor.updateMetrics
                     (metricsTime f) (checkTime f) pm))
            (contentAnimations a) (frameCount a) (lastTime a) (fps a)
            (deviceType a)
      | None =>
          if enablePerformanceMonitoring (options a)
          then updatePerformanceMetrics (metricsTime f) a
          else a
      end in
    match renderer a with
    | Some _ => (a, Return tt)
    | None => (a, Throw)
    end.

Definition setRunning (r : bool) (a : t) : t :=
  mkManager (options a) (scene a) (camera a) (renderer a)
    (isInitialized a) r (animationId a) (particleSystem a)
    (interactiveElements a) (performanceMonitor a) (contentAnimations a)
    (frameCount a) (lastTime a) (fps a) (deviceType a).

(** [start]. *)
Definition start (f : Frame) (a : t) : t * Completion bool :=
  if negb (isInitialized a) then (a, Return false)
  else if isRunning a then (a, Return true)
  else
    match animate f (setRunning true a) with
    | (a, Return _) => (a, Return true)
    | (a, Throw) => (a, Throw)
    end.

(** [stop]; a handle equal to 0 is falsy. *)
Definition stop (a : t) : t :=
  let id :=
    match animationId a with
    | Some id => if (id =? 0)%Z then Some id else None
    | None => None
    end in
  mkManager (options a) (scene a) (camera a) (renderer a)
    (isInitialized a) false id (particleSystem a)
    (interactiveElements a) (performanceMonitor a) (contentAnimations a)
    (frameCount a) (lastTime a) (fps a) (deviceType a).

(** The [animationVisibilityChange] listener that
    [setupPerformanceListeners] installs on [window]. *)
Definition onAnimationVisibilityChange (visible : bool) (f : Frame) (a : t)
  : t :=
  if visible then
    if negb (isRunning a) then fst (start f a) else a
  else
    if isRunning a then stop a else a.

(** [dispose]. *)
Definition dispose (a : t) : t :=
  let a := stop a in
  mkManager (options a) None None None false (isRunning a)
    (animationId a) None None None None
    (frameCount a) (lastTime a) (fps a) (deviceType a).

(** One thing that can happen to a manager, and a session as a list of
    them.  The visibility listener is taken to be callable at any time,
    which only adds sessions. *)
Inductive Action : Type :=
| Init (e : InitEnv)
| Start (f : Frame)
| Stop
| Animate (f : Frame)
| VisibilityChange (visible : bool) (f : Frame)
| Dispose.

Definition step (a : t) (x : Action) : t :=
  match x with
  | Init e => fst (init e a)
  | Start f => fst (start f a)
  | Stop => stop a
  | Animate f => fst (animate f a)
  | VisibilityChange visible f => onAnimationVisibilityChange visible f a
  | Dispose => dispose a
  end.

Definition run (xs : list Action) (a : t) : t := fold_left step xs a.

End AnimationManager.

(* ================================================================== *)
(** ** The tier state machine in the words of the specification         *)
(* ================================================================== *)

Module TierSpec.

Import Js PerformanceMonitor.
Open Scope string_scope.

(** The four quality tiers. *)
Definition tiers : list string := [ "high"; "medium"; "low"; "disabled" ].

Definition isTier (q : string) : bool := existsb (String.eqb q) tiers.

(** The order high > medium > low > disabled. *)
Definition rank (q : string) : nat :=
  if q =? "high" then 3
  else if q =? "medium" then 2
  else if q =? "low" then 1
  else 0.

(** One step down the order high -> medium -> low. *)
Definition nextLower (q : string) : string :=
  if q =? "high" then "medium"
  else if q =? "medium" then "low"
  else q.

(** desktop -> high, tablet -> medium, mobile -> low. *)
Definition tierForDevice (device : string) : string :=
  if device =? "mobile" then "low"
  else if device =? "tablet" then "medium"
  else "high".


(** The device's target frame rate. *)
Definition targetFor (device : string) : float :=
  if device =? "desktop" then 60%float
  else if device =? "tablet" then 45%float
  else if device =? "mobile" then 30%float
  else nan.













(** The steps the animation loop takes by itself, and the notification
    that reduced motion was switched on. *)
Definition automatic (e : Event) : bool :=
  match e with
  | UpdateMetrics _ _ => true
  | CheckPerformanceThreshold _ => true
  | ReducedMotionChange matches => matches
  | _ => false
  end.

(** The steps of the performance check alone. *)
Definition performanceStep (e : Event) : bool :=
  match e with
  | UpdateMetrics _ _ => true
  | CheckPerformanceThreshold _ => true
  | _ => false
  end.

End TierSpec.

(* ================================================================== *)
(** ** Concrete browsers and sessions                                   *)
(* ================================================================== *)

Module Samples.

Import Js.
Open Scope string_scope.
Open Scope float_scope.

Definition desktopUA : string :=
  "Mozilla/5.0 (X11; Linux x86_64) AppleWebKit/537.36 Chrome/120.0 Safari/537.36".

Definition phoneUA : string :=
  "Mozilla/5.0 (iPhone; CPU iPhone OS 17_0 like Mac OS X) Mobile/15E148".

(** A desktop browser with WebGL and no reduced-motion preference. *)
Definition desktop : Browser :=
  mkBrowser desktopUA 1920 (Context true true) (Some false).

(** The same machine with the reduced-motion preference switched on. *)
Definition desktopReducedMotion : Browser :=
  mkBrowser desktopUA 1920 (Context true true) (Some true).

(** The same machine without WebGL. *)
Definition desktopNoWebGL : Browser :=
  mkBrowser desktopUA 1920 NoContext (Some false).

Definition phone : Browser :=
  mkBrowser phoneUA 390 (Context true true) (Some false).

(** A run of [Math.random()] whose first eight draws are 0.5: the first
    particle is created at the origin, at rest. *)
Definition restingFirst (k : nat) : float :=
  if (k <? 8)%nat then 0.5 else ofNat (k mod 97) / 97.

(** The particle system of a phone, built from that run; the pointer has
    not moved yet, so [mousePosition] is still (0, 0). *)
Definition phoneParticles : ParticleSystem.t :=
  ParticleSystem.new "mobile" restingFirst.

(** A run of draws that creates the first particle at (5, -5, 0) with the
    three velocity draws equal to 0.5001, and the same system after the
    pointer has moved to pixel (1200, 600) of a 1600 x 800 window. *)
Definition pinnedFirst (k : nat) : float :=
  match k with
  | 0%nat => 0.75
  | 1%nat => 0.25
  | 2%nat => 0.5
  | 3%nat | 4%nat | 5%nat => 0.5001
  | _ => if (k <? 8)%nat then 0.5 else ofNat (k mod 97) / 97
  end.

Definition pointedParticles : ParticleSystem.t :=
  ParticleSystem.updateMousePosition 1200 600 1600 800
    (ParticleSystem.new "mobile" pinnedFirst).

Definition velocitiesOf (p : ParticleSystem.t) : list float :=
  match ParticleSystem.data p with
  | Some d => ParticleSystem.velocities d
  | None => []
  end.

(** Frames 40 ms apart (25 frames per second), [n] of them, from time
    [start] on. *)
Fixpoint slowFrames (n : nat) (start : float)
  : list PerformanceMonitor.Event :=
  match n with
  | O => []
  | S k =>
      PerformanceMonitor.UpdateMetrics start start
        :: slowFrames k (start + 40)
  end.

(** What [init] meets on that desktop: every constructor succeeds. *)
Definition desktopInit : AnimationManager.InitEnv :=
  AnimationManager.mkInitEnv desktop 5 5 false restingFirst false false false.

(** What [init] meets on the phone: every constructor succeeds. *)
Definition phoneInit : AnimationManager.InitEnv :=
  AnimationManager.mkInitEnv phone 5 5 false restingFirst false false false.

(** The first animation frame: handle 1, at 16 ms. *)
Definition firstFrame : AnimationManager.Frame :=
  AnimationManager.mkFrame 1 16 16 16.

Definition secondFrame : AnimationManager.Frame :=
  AnimationManager.mkFrame 2 32 32 32.

End Samples.

(* ================================================================== *)
(** ** index.js: [initAnimations]                                       *)
(* ================================================================== *)

Module Index.

Import Js AnimationManager.

(** [initAnimations].  A temporary monitor probes the browser; when it
    disables animations the function reads [fallbackConfig.reason], which
    throws when [getFallbackConfig] returned [null], and returns [null].
    Otherwise a manager is constructed, initialised and started inside a
    [try] block whose [catch] returns [null].  [probeTime0] and
    [probeTime1] are the clock readings of the temporary monitor,
    [managerTime] the one of the manager's constructor; [e] and [f] are
    what [init] and the first [animate] meet. *)
Definition initAnimations (e : InitEnv)
  (probeTime0 probeTime1 managerTime : float) (f : Frame)
  : Completion (option AnimationManager.t) :=
  let performanceMonitor :=
    PerformanceMonitor.new PerformanceMonitor.noOptions (browser e)
      probeTime0 probeTime1 in
  if negb (PerformanceMonitor.shouldEnableAnimations performanceMonitor)
  then
    match PerformanceMonitor.getFallbackConfig performanceMonitor with
    | None => Throw
    | Some _ => Return None
    end
  else
    let animationManager :=
      AnimationManager.new (mkOptions None true) (browser e) managerTime in
    match init e animationManager with
    | (animationManager, true) =>
        match start f animationManager with
        | (animationManager, Return _) => Return (Some animationManager)
        | (_, Throw) => Return None
        end
    | (_, false) => Return None
    end.

End Index.

(* ================================================================== *)
(** ** One particle at a time                                           *)
(* ================================================================== *)

Module ParticleSpec.

Import Js ParticleSystem.
Open Scope float_scope.

(** The three slots of particle [i] in an array. *)
Definition tripleAt (a : Float32Array) (i : nat) : float * float * float :=
  (aget a (i * 3), aget a (i * 3 + 1), aget a (i * 3 + 2)).

(** Boundary wrapping of one coordinate, with the two stores it can
    make. *)
Definition wrapCoord (lo hi x : float) : float :=
  let x := if gt x hi then Math_fround lo else x in
  if lt x lo then Math_fround hi else x.

(** Boundary wrapping of one slot of the array: the two conditional
    stores of [update] for that slot. *)
Definition wrapSlot (k : nat) (lo hi : float) (pos : Float32Array)
  : Float32Array :=
  let pos := if gt (aget pos k) hi then aset pos k lo else pos in
  if lt (aget pos k) lo then aset pos k hi else pos.

(** What one frame does to a particle, read as a function of its own
    velocity and position: floating movement, mouse repulsion, boundary
    wrapping, each store rounded to binary32. *)
Definition stepTriple (cfg : Config) (mouse : float * float)
  (v p : float * float * float) : float * float * float :=
  let '(vx, vy, vz) := v in
  let '(x, y, z) := p in
  let x := Math_fround (x + vx) in
  let y := Math_fround (y + vy) in
  let z := Math_fround (z + vz) in
  let dx := x - fst mouse * 10 in
  let dy := y - snd mouse * 10 in
  let distance := PrimFloat.sqrt (dx * dx + dy * dy) in
  let force := (3 - distance) * mouseInfluence cfg in
  let x' := if lt distance 3
            then Math_fround (x + (dx / distance) * force) else x in
  let y' := if lt distance 3
            then Math_fround (y + (dy / distance) * force) else y in
  (wrapCoord (-10) 10 x', wrapCoord (-10) 10 y', wrapCoord (-5) 5 z).

End ParticleSpec.

(* ================================================================== *)
(** ** InteractiveElements                                              *)
(* ================================================================== *)

Module Interactive.

Import Js.
Open Scope float_scope.

Record Config : Type := mkConfig {
  objectSize : float;
  rotationSpeed : float;
  parallaxStrength : float;
  dampening : float;
  wireframeOpacity : float
}.

Definition configs : list (string * Config) :=
  [ ("desktop"%string, mkConfig 1.5 0.005 0.1 0.95 0.6);
    ("tablet"%string, mkConfig 1.2 0.004 0.08 0.92 0.5);
    ("mobile"%string, mkConfig 1.0 0.003 0.05 0.9 0.4) ].

(** What [this.config] can hold: one of the configurations of the table,
    or the built-in value that a name inherited from [Object.prototype]
    resolves to, which is truthy and has none of the properties of a
    configuration. *)
Inductive ConfigValue : Type :=
| DeviceConfig (c : Config)
| BuiltIn (name : string).

(** [getDeviceConfig]: [configs[deviceType] || configs.desktop]. *)
Definition getDeviceConfig (deviceType : string) : ConfigValue :=
  match getProp configs deviceType with
  | Own c => DeviceConfig c
  | Undefined => DeviceConfig (mkConfig 1.5 0.005 0.1 0.95 0.6)
  | Inherited name => BuiltIn name
  end.

(** The properties of [this.config] that [update] reads, as the numbers
    they are in its arithmetic: [undefined] is NaN there. *)
Definition rotationSpeedOf (cfg : ConfigValue) : float :=
  match cfg with
  | DeviceConfig c => rotationSpeed c
  | BuiltIn _ => nan
  end.

Definition parallaxStrengthOf (cfg : ConfigValue) : float :=
  match cfg with
  | DeviceConfig c => parallaxStrength c
  | BuiltIn _ => nan
  end.

Definition dampeningOf (cfg : ConfigValue) : float :=
  match cfg with
  | DeviceConfig c => dampening c
  | BuiltIn _ => nan
  end.

Record Vec3 : Type := mkVec3 { vx : float; vy : float; vz : float }.

(** The mesh: the three fields of it that the class writes. *)
Record HeroObject : Type := mkHero {
  rotation : Vec3;
  scale : float;
  position : Vec3
}.

(** The group holding the mesh: its position. *)
Record Group : Type := mkGroup { groupPosition : Vec3 }.

(** [heroSection.getBoundingClientRect()]. *)
Record Rect : Type := mkRect {
  top : float;
  bottom : float;
  left : float;
  right : float;
  width : float;
  height : float
}.

(** The fields of [this]; [heroSection] records whether the element was
    found (and not yet released by [dispose]). *)
Record t : Type := mkInteractive {
  deviceType : string;
  config : ConfigValue;
  heroObject : option HeroObject;
  heroObjectGroup : option Group;
  time : float;
  mousePosition : float * float;
  targetRotation : Vec3;
  currentRotation : Vec3;
  heroSection : bool
}.

(** The constructor followed by [init]; [heroFound] tells whether
    [document.querySelector('.hero')] finds an element.  Without it the
    objects stay [null] and no listener is installed. *)
Definition new (deviceType : string) (heroFound : bool) : t :=
  let cfg := getDeviceConfig deviceType in
  if heroFound then
    mkInteractive deviceType cfg
      (Some (mkHero (mkVec3 0 0 0) 1 (mkVec3 3 0 (-2))))
      (Some (mkGroup (mkVec3 0 0 0)))
      0 (0, 0) (mkVec3 0 0 0) (mkVec3 0 0 0) true
  else
    mkInteractive deviceType cfg None None
      0 (0, 0) (mkVec3 0 0 0) (mkVec3 0 0 0) false.

Definition withMouse (mouse : float * float) (s : t) : t :=
  mkInteractive (deviceType s) (config s) (heroObject s)
    (heroObjectGroup s) (time s) mouse (targetRotation s)
    (currentRotation s) (heroSection s).

Definition withHero (h : option HeroObject) (s : t) : t :=
  mkInteractive (deviceType s) (config s) h
    (heroObjectGroup s) (time s) (mousePosition s) (targetRotation s)
    (currentRotation s) (heroSection s).

(** [handleMouseMove]; [rect] is what [getBoundingClientRect] returns at
    the time of the event. *)
Definition handleMouseMove (clientX clientY : float) (rect : Rect) (s : t)
  : t :=
  if negb (heroSection s) then s
  else
    let isInHeroSection :=
      ge clientY (top rect) && le clientY (bottom rect)
      && ge clientX (left rect) && le clientX (right rect) in
    if isInHeroSection then
      withMouse
        ( ((clientX - left rect) / width rect) * 2 - 1,
          - ((clientY - top rect) / height rect) * 2 + 1 ) s
    else s.

(** [handleHeroEnter] and [handleHeroLeave]; the listeners exist only
    while the hero section does. *)
Definition handleHeroEnter (s : t) : t :=
  if negb (heroSection s) then s
  else
    match heroObject s with
    | Some h => withHero (Some (mkHero (rotation h) 1.1 (position h))) s
    | None => s
    end.

Definition handleHeroLeave (s : t) : t :=
  if negb (heroSection s) then s
  else
    match heroObject s with
    | Some h =>
        withMouse (0, 0)
          (withHero (Some (mkHero (rotation h) 1.0 (position h))) s)
    | None => s
    end.

(** [x !== 0] on numbers: false for 0 and -0, true for NaN. *)
Definition nonZero (x : float) : bool := negb (PrimFloat.eqb x 0).

(** [update(deltaTime)]. *)
Definition update (deltaTime : float) (s : t) : t :=
  match heroObject s, heroObjectGroup s with
  | Some h, Some g =>
      let current :=
        mkVec3
          (vx (currentRotation s) + rotationSpeedOf (config s))
          (vy (currentRotation s) + rotationSpeedOf (config s) * 0.7)
          (vz (currentRotation s) + rotationSpeedOf (config s) * 0.3) in
      let h := mkHero current (scale h) (position h) in
      let g :=
        if nonZero (fst (mousePosition s))
           || nonZero (snd (mousePosition s))
        then
          let targetX :=
            fst (mousePosition s) * parallaxStrengthOf (config s) in
          let targetY :=
            snd (mousePosition s) * parallaxStrengthOf (config s) in
          let currentPos := groupPosition g in
          mkGroup
            (mkVec3
               (vx currentPos
                + (targetX - vx currentPos) * (1 - dampeningOf (config s)))
               (vy currentPos
                + (targetY - vy currentPos) * (1 - dampeningOf (config s)))
               (vz currentPos))
        else g in
      mkInteractive (deviceType s) (config s) (Some h) (Some g)
        (time s + deltaTime) (mousePosition s) (targetRotation s) current
        (heroSection s)
  | _, _ => s
  end.

(** [simulateMouseInteraction]. *)
Definition simulateMouseInteraction (x y : float) (s : t) : t :=
  withMouse (x, y) s.

(** [getCurrentRotation] and [getCurrentPosition]. *)
Definition getCurrentRotation (s : t) : Vec3 :=
  match heroObject s with
  | Some h => rotation h
  | None => mkVec3 0 0 0
  end.

Definition getCurrentPosition (s : t) : Vec3 :=
  match heroObjectGroup s with
  | Some g => groupPosition g
  | None => mkVec3 0 0 0
  end.

(** [dispose] (listener and scene bookkeeping apart). *)
Definition dispose (s : t) : t :=
  mkInteractive (deviceType s) (config s) None None (time s)
    (mousePosition s) (targetRotation s) (currentRotation s) false.

(** What can happen to the interactive elements. *)
Inductive Event : Type :=
| Frame (deltaTime : float)
| MouseMove (clientX clientY : float) (rect : Rect)
| HeroEnter
| HeroLeave
| Dispose.

Definition step (s : t) (e : Event) : t :=
  match e with
  | Frame deltaTime => update deltaTime s
  | MouseMove clientX clientY rect => handleMouseMove clientX clientY rect s
  | HeroEnter => handleHeroEnter s
  | HeroLeave => handleHeroLeave s
  | Dispose => dispose s
  end.

Definition run (es : list Event) (s : t) : t := fold_left step es s.

(** Frames only. *)
Definition isFrame (e : Event) : bool :=
  match e with
  | Frame _ => true
  | _ => false
  end.

(** What holds of an instance after every session: the mesh, while it
    exists, carries the rotation state and sits where it was created; the
    group stays in the plane z = 0; without a hero section there is no
    mesh. *)
Definition heroInvariant (s : t) : Prop :=
  match heroObject s with
  | Some h =>
      rotation h = currentRotation s /\ position h = mkVec3 3 0 (-2)
  | None => True
  end
  /\ match heroObjectGroup s with
     | Some g => vz (groupPosition g) = 0
     | None => True
     end
  /\ (heroSection s = false -> heroObject s = None).

End Interactive.

(* ================================================================== *)
(** ** Kinds of sessions                                                *)
(* ================================================================== *)

Module Sessions.

Import PerformanceMonitor.

(** The animation loop alone: nothing but [updateMetrics] calls. *)
Definition frameOnly (e : Event) : bool :=
  match e with
  | UpdateMetrics _ _ => true
  | _ => false
  end.

(** The warning counter never runs ahead of the samples: it is at most
    the number of samples beyond the fourth (and the history holds at most
    60 of them). *)
Definition paced (m : t) : Prop :=
  maxHistoryLength m = 60%nat
  /\ (0 <= performanceWarningCount m)%Z
  /\ (performanceWarningCount m
      <= Z.max 0 (Z.of_nat (List.length (fpsHistory m)) - 4))%Z.





(** What every session of a manager constructed at time [now] keeps: a
    running manager is initialised; an initialised one has its scene,
    camera, renderer and monitor; the legacy sampler fields are the ones
    the constructor wrote. *)
Definition sound (now : float) (a : AnimationManager.t) : Prop :=
  (AnimationManager.isRunning a = true ->
   AnimationManager.isInitialized a = true)
  /\ (AnimationManager.isInitialized a = true ->
      AnimationManager.renderer a <> None
      /\ AnimationManager.scene a <> None
      /\ AnimationManager.camera a <> None
      /\ AnimationManager.performanceMonitor a <> None)
  /\ AnimationManager.fps a = 60%float
  /\ AnimationManager.frameCount a = 0%float
  /\ AnimationManager.lastTime a = now.

(** Every action of a manager but [init]. *)
Definition notInit (x : AnimationManager.Action) : bool :=
  match x with
  | AnimationManager.Init _ => false
  | _ => true
  end.

(** The particle system of a manager is the one of the manager's device
    class. *)
Definition particlesOfDevice (a : AnimationManager.t) : Prop :=
  match AnimationManager.particleSystem a with
  | Some p =>
      ParticleSystem.getDeviceConfig (AnimationManager.deviceType a)
      = ParticleSystem.config p
  | None => True
  end.

End Sessions.

(* ================================================================== *)
(** ** The embedding at work                                            *)
(* ================================================================== *)

Section Evaluation.

Import Js.
Open Scope string_scope.
Open Scope float_scope.

Example toLowerCase_user_agent :
  toLowerCase "Mozilla/5.0 (iPad; CPU OS 17_0)"
  = "mozilla/5.0 (ipad; cpu os 17_0)".
Proof. reflexivity. Qed.

Example Math_round_ties_up :
  [ Math_round 59.5; Math_round 59.4; Math_round 2.5; Math_round (-2.5);
    Math_round 0.49999999999999994 ]
  = [ 60; 59; 3; -2; 0 ].
Proof. reflexivity. Qed.

Example Math_fround_binary32 :
  [ Math_fround 0.5; Math_fround 16777217; Math_fround 5.0000002;
    Math_fround 1e40 ]
  = [ 0.5; 16777216; 5; infinity ].
Proof. reflexivity. Qed.

Example classify_phone :
  PerformanceMonitor.detectDeviceType Samples.phone = "mobile".
Proof. reflexivity. Qed.

Example classify_android_phone :
  PerformanceMonitor.detectDeviceType
    (mkBrowser "Mozilla/5.0 (Linux; Android 13; Pixel 7) Mobile Safari/537.36"
       412 (Context true true) None)
  = "mobile".
Proof. reflexivity. Qed.

Example classify_android_tablet :
  PerformanceMonitor.detectDeviceType
    (mkBrowser "Mozilla/5.0 (Linux; Android 13; SM-X700) Safari/537.36"
       1280 (Context true true) None)
  = "tablet".
Proof. reflexivity. Qed.

Example classify_ipad :
  PerformanceMonitor.detectDeviceType
    (mkBrowser "Mozilla/5.0 (iPad; CPU OS 17_0 like Mac OS X)"
       1180 (Context true true) None)
  = "tablet".
Proof. reflexivity. Qed.

Example classify_narrow_desktop :
  PerformanceMonitor.detectDeviceType
    (mkBrowser Samples.desktopUA 800 (Context true true) None)
  = "tablet"
  /\ PerformanceMonitor.detectDeviceType Samples.desktop = "desktop".
Proof. split; reflexivity. Qed.

(** The thresholds of the three device classes are 48, 36 and 24 frames
    per second: the products 60 * 0.8, 45 * 0.8 and 30 * 0.8 are rounded to
    these integers. *)
Example thresholds :
  map (fun d => TierSpec.targetFor d * 0.8) [ "desktop"; "tablet"; "mobile" ]
  = [ 48; 36; 24 ].
Proof. reflexivity. Qed.

(** A desktop monitor at 25 frames per second goes to 'medium' with the
    check at 7010 ms and to 'low' with the check at 11010 ms, after the
    cool-down has passed over the check at 8010 ms. *)
Example slow_session :
  map (fun n =>
         PerformanceMonitor.currentQuality
           (PerformanceMonitor.run (Samples.slowFrames n 50)
              (PerformanceMonitor.new PerformanceMonitor.noOptions
                 Samples.desktop 10 10)))
    [ 174; 175; 274; 275 ]%nat
  = [ "high"; "medium"; "medium"; "low" ].
Proof. vm_compute. reflexivity. Qed.

End Evaluation.

(* ================================================================== *)
(** ** Device classification                                            *)
(* ================================================================== *)

Section DeviceClassification.

Import Js.
Open Scope string_scope.

Lemma monitor_device_cases (b : Browser) :
  PerformanceMonitor.detectDeviceType b = "desktop"
  \/ PerformanceMonitor.detectDeviceType b = "tablet"
  \/ PerformanceMonitor.detectDeviceType b = "mobile".
Proof.
  unfold PerformanceMonitor.detectDeviceType.
  destruct (DeviceRegex.mobilePattern _); destruct (_ || _); cbn; auto.
Qed.


(** C7.  Device classification is a total function of the user-agent
    string and the viewport width: [detectDeviceType] always returns one
    of 'desktop', 'tablet', 'mobile'; two browsers that agree on the user
    agent and on the width are classified alike, whatever else differs;
    and the copy in AnimationManager computes the same function as the
    copy in PerformanceMonitor. *)
Theorem detectDeviceType_total_function :
  (forall b : Browser,
      PerformanceMonitor.detectDeviceType b = "desktop"
      \/ PerformanceMonitor.detectDeviceType b = "tablet"
      \/ PerformanceMonitor.detectDeviceType b = "mobile")
  /\ (forall b1 b2 : Browser,
         userAgent b1 = userAgent b2 ->
         innerWidth b1 = innerWidth b2 ->
         PerformanceMonitor.detectDeviceType b1
         = PerformanceMonitor.detectDeviceType b2)
  /\ (forall b : Browser,
         AnimationManager.detectDeviceType b
         = PerformanceMonitor.detectDeviceType b).
Proof.
  split; [exact monitor_device_cases | split].
  - intros b1 b2 Hua Hw.
    unfold PerformanceMonitor.detectDeviceType.
    rewrite Hua, Hw. reflexivity.
  - intro b. reflexivity.
Qed.

Lemma detectDeviceType_total_function_witness :
  PerformanceMonitor.detectDeviceType Samples.desktop
  = PerformanceMonitor.detectDeviceType Samples.desktopNoWebGL
  /\ PerformanceMonitor.detectDeviceType Samples.desktop = "desktop"
  /\ AnimationManager.detectDeviceType Samples.phone = "mobile".
Proof.
  destruct detectDeviceType_total_function as [_ [Hsame Hcopy]].
  split; [| split].
  - apply (Hsame Samples.desktop Samples.desktopNoWebGL); reflexivity.
  - vm_compute. reflexivity.
  - rewrite (Hcopy Samples.phone). vm_compute. reflexivity.
Defined.

End DeviceClassification.

(* ================================================================== *)
(** ** Quality tiers: initial tier, settings, manual override           *)
(* ================================================================== *)

Lemma isTier_cases (q : string) :
TierSpec.isTier q = true ->
q = "high"%string \/ q = "medium"%string \/ q = "low"%string
\/ q = "disabled"%string.
Proof.
unfold TierSpec.isTier, TierSpec.tiers. cbn [existsb]. intro H.
repeat (apply orb_true_iff in H; destruct H as [H | H];
        [apply String.eqb_eq in H; auto |]).
discriminate.
Qed.


(** Splitting a tier (or device) hypothesis into its cases. *)
Ltac tier_cases H :=
apply isTier_cases in H; destruct H as [H | [H | [H | H]]].


Section QualityTiers.

Import Js PerformanceMonitor TierSpec.
Open Scope string_scope.

Lemma currentQuality_withQuality (q : string) (m : t) :
  currentQuality (withQuality q m) = q.
Proof. reflexivity. Qed.

Lemma currentQuality_emit (m : t) :
  currentQuality (emitQualityChange m) = currentQuality m.
Proof. reflexivity. Qed.

Lemma setInitialQuality_value (m : t) :
  currentQuality (setInitialQuality m)
  = if negb (webGLSupported m) || reducedMotionPreferred m
    then "disabled" else tierForDevice (deviceType m).
Proof.
  unfold setInitialQuality, tierForDevice.
  destruct (webGLSupported m), (reducedMotionPreferred m); cbn;
    try reflexivity.
  destruct (deviceType m =? "mobile"); [reflexivity |].
  destruct (deviceType m =? "tablet"); reflexivity.
Qed.

Lemma tierForDevice_isTier (d : string) : isTier (tierForDevice d) = true.
Proof.
  unfold tierForDevice.
  destruct (d =? "mobile"); [reflexivity |].
  destruct (d =? "tablet"); reflexivity.
Qed.

Lemma setInitialQuality_isTier (m : t) :
  isTier (currentQuality (setInitialQuality m)) = true.
Proof.
  rewrite setInitialQuality_value.
  destruct (_ || _); [reflexivity | apply tierForDevice_isTier].
Qed.

Lemma new_isTier (o : OptionsArg) (b : Browser) (t0 t1 : float) :
  isTier (currentQuality (new o b t0 t1)) = true.
Proof. unfold new. apply setInitialQuality_isTier. Qed.

Lemma reduceQuality_isTier (m : t) :
  isTier (currentQuality (reduceQuality m)) = true
  \/ reduceQuality m = m.
Proof.
  unfold reduceQuality.
  destruct (indexOf qualityOrder (currentQuality m) 0 <? _)%Z eqn:E;
    [left | right; reflexivity].
  rewrite currentQuality_emit, currentQuality_withQuality.
  unfold qualityOrder in *. cbn [indexOf] in *.
  destruct (_ =? currentQuality m); [reflexivity |].
  destruct (_ =? currentQuality m); [reflexivity |].
  destruct (_ =? currentQuality m); [discriminate | reflexivity].
Qed.

(** C3.  The tier is set to 'disabled' at once when WebGL is missing or
    reduced motion is preferred: [setInitialQuality] yields 'disabled' when
    [webGLSupported] is false or [reducedMotionPreferred] is true, so does
    the constructor when the WebGL probe fails or the browser reports the
    preference, and a preference-change notification with [matches = true]
    sets 'disabled' from whatever tier the monitor was in. *)
Theorem disabled_immediately :
  (forall m : t,
      webGLSupported m = false \/ reducedMotionPreferred m = true ->
      currentQuality (setInitialQuality m) = "disabled")
  /\ (forall (o : OptionsArg) (b : Browser) (t0 t1 : float),
         detectWebGLSupport b = false
         \/ detectReducedMotionPreference b = true ->
         currentQuality (new o b t0 t1) = "disabled")
  /\ (forall m : t,
         currentQuality (onReducedMotionChange true m) = "disabled").
Proof.
  assert (Hinit : forall m : t,
             webGLSupported m = false \/ reducedMotionPreferred m = true ->
             currentQuality (setInitialQuality m) = "disabled").
  { intros m H. rewrite setInitialQuality_value.
    destruct H as [H | H]; rewrite H; cbn; [reflexivity |].
    rewrite orb_true_r. reflexivity. }
  split; [exact Hinit | split].
  - intros o b t0 t1 H. unfold new. apply Hinit. exact H.
  - intro m. reflexivity.
Qed.

Lemma disabled_immediately_witness :
  currentQuality (setInitialQuality (new noOptions Samples.desktopNoWebGL 0 0))
  = "disabled"
  /\ currentQuality (new noOptions Samples.desktopReducedMotion 0 0)
     = "disabled"
  /\ currentQuality
       (onReducedMotionChange true (new noOptions Samples.desktop 0 0))
     = "disabled".
Proof.
  destruct disabled_immediately as [Hinit [Hnew Hchange]].
  split; [| split].
  - apply Hinit. left. reflexivity.
  - apply Hnew. right. reflexivity.
  - apply Hchange.
Defined.

(** C6.  [getQualitySettings] is defined on every tier: 2000 particles
    with shadows and anti-aliasing for 'high', 1000 with anti-aliasing
    only for 'medium', 500 with neither for 'low', 0 with neither for
    'disabled'; the particle count strictly decreases along
    high, medium, low, disabled. *)
Theorem getQualitySettings_table :
  (forall m : t,
      currentQuality m = "high" ->
      getQualitySettings m = Settings (mkSettings 2000 true true))
  /\ (forall m : t,
         currentQuality m = "medium" ->
         getQualitySettings m = Settings (mkSettings 1000 false true))
  /\ (forall m : t,
         currentQuality m = "low" ->
         getQualitySettings m = Settings (mkSettings 500 false false))
  /\ (forall m : t,
         currentQuality m = "disabled" ->
         getQualitySettings m = Settings (mkSettings 0 false false))
  /\ (forall m : t,
         isTier (currentQuality m) = true ->
         exists q, getQualitySettings m = Settings q)
  /\ (forall mh mm ml md : t,
         currentQuality mh = "high" -> currentQuality mm = "medium" ->
         currentQuality ml = "low" -> currentQuality md = "disabled" ->
         exists qh qm ql qd,
           getQualitySettings mh = Settings qh
           /\ getQualitySettings mm = Settings qm
           /\ getQualitySettings ml = Settings ql
           /\ getQualitySettings md = Settings qd
           /\ (particles qd < particles ql < particles qm)%Z
           /\ (particles qm < particles qh)%Z).
Proof.
  assert (Hh : forall m, currentQuality m = "high" ->
               getQualitySettings m = Settings (mkSettings 2000 true true)).
  { intros m H. unfold getQualitySettings. rewrite H. reflexivity. }
  assert (Hm : forall m, currentQuality m = "medium" ->
               getQualitySettings m = Settings (mkSettings 1000 false true)).
  { intros m H. unfold getQualitySettings. rewrite H. reflexivity. }
  assert (Hl : forall m, currentQuality m = "low" ->
               getQualitySettings m = Settings (mkSettings 500 false false)).
  { intros m H. unfold getQualitySettings. rewrite H. reflexivity. }
  assert (Hd : forall m, currentQuality m = "disabled" ->
               getQualitySettings m = Settings (mkSettings 0 false false)).
  { intros m H. unfold getQualitySettings. rewrite H. reflexivity. }
  split; [exact Hh |]. split; [exact Hm |]. split; [exact Hl |].
  split; [exact Hd |]. split.
  - intros m H. tier_cases H; eauto.
  - intros mh mm ml md Qh Qm Ql Qd.
    exists (mkSettings 2000 true true), (mkSettings 1000 false true),
      (mkSettings 500 false false), (mkSettings 0 false false).
    rewrite (Hh mh Qh), (Hm mm Qm), (Hl ml Ql), (Hd md Qd).
    cbn [particles]. repeat split; lia.
Qed.

Lemma getQualitySettings_table_witness :
  getQualitySettings (new noOptions Samples.desktop 0 0)
  = Settings (mkSettings 2000 true true)
  /\ getQualitySettings (new noOptions Samples.desktopReducedMotion 0 0)
     = Settings (mkSettings 0 false false)
  /\ getQualitySettings (new noOptions Samples.phone 0 0)
     = Settings (mkSettings 500 false false).
Proof.
  destruct getQualitySettings_table as [Hh [_ [Hl [Hd _]]]].
  split; [| split].
  - apply Hh. reflexivity.
  - apply Hd. reflexivity.
  - apply Hl. reflexivity.
Defined.

End QualityTiers.

(* ================================================================== *)
(** ** Manual override: [setQuality]                                    *)
(* ================================================================== *)

Section ManualOverride.

Import Js PerformanceMonitor TierSpec.
Open Scope string_scope.

(** Every operation other than [setQuality] keeps the tier among the
    four, and so does [setQuality] for a name that is a tier or that
    resolves to nothing at all. *)
Lemma checkPerformanceThreshold_isTier (now : float) (m : t) :
  isTier (currentQuality m) = true ->
  isTier (currentQuality (checkPerformanceThreshold now m)) = true.
Proof.
  intro H. unfold checkPerformanceThreshold.
  destruct (_ || _); [exact H |].
  destruct (lt _ _); [exact H |].
  destruct (5 <=? _)%nat; [| exact H].
  destruct (lt _ _); [| exact H].
  destruct (3 <=? _)%Z; [| exact H].
  cbn [withLastAdjustment withWarnings currentQuality].
  destruct (reduceQuality_isTier
              (withWarnings (performanceWarningCount m + 1) m)) as [E | E].
  - exact E.
  - rewrite E. exact H.
Qed.

Lemma updateMetrics_isTier (t1 t2 : float) (m : t) :
  isTier (currentQuality m) = true ->
  isTier (currentQuality (updateMetrics t1 t2 m)) = true.
Proof.
  intro H. unfold updateMetrics.
  destruct (ge _ _); [| exact H].
  apply checkPerformanceThreshold_isTier. exact H.
Qed.

Lemma onReducedMotionChange_isTier (matches : bool) (m : t) :
  isTier (currentQuality (onReducedMotionChange matches m)) = true.
Proof.
  unfold onReducedMotionChange. rewrite currentQuality_emit.
  destruct matches; cbn [withReducedMotion reducedMotionPreferred].
  - reflexivity.
  - apply setInitialQuality_isTier.
Qed.

Lemma setQuality_tier_or_rejected (quality : string) (m : t) :
  (isTier quality = true ->
   currentQuality (setQuality quality m) = quality)
  /\ (isTier quality = false ->
      getProp qualityLevels quality = Undefined ->
      setQuality quality m = m).
Proof.
  split.
  - intro H. tier_cases H; subst quality; reflexivity.
  - intros H G. unfold setQuality. rewrite G.
    unfold isTier, tiers in H. cbn [existsb] in H.
    destruct (quality =? "disabled"); [| reflexivity].
    rewrite !orb_true_r in H. discriminate.
Qed.

(** C5.  [setQuality] is meant to reject every argument that is not a
    tier, but its guard [this.qualityLevels[quality]] is also truthy for
    the names an object literal inherits from [Object.prototype]: on a
    freshly constructed desktop monitor, [setQuality('constructor')] is
    accepted and leaves [currentQuality] equal to 'constructor', which is
    none of high, medium, low, disabled; the settings it then reports are
    no settings object. *)
Theorem setQuality_accepts_inherited_name :
  let m := new noOptions Samples.desktop 0 0 in
  isTier (currentQuality m) = true
  /\ isTier "constructor" = false
  /\ currentQuality (setQuality "constructor" m) = "constructor"
  /\ isTier (currentQuality (setQuality "constructor" m)) = false
  /\ getQualitySettings (setQuality "constructor" m)
     = Builtin "constructor".
Proof. cbv zeta. repeat split. Qed.

End ManualOverride.

(* ================================================================== *)
(** ** ParticleSystem.update at a particle under the pointer            *)
(* ================================================================== *)

Section ParticleUpdate.

Import Js ParticleSystem.
Open Scope float_scope.

(** The first system has its 500 particles; the first one is at the
    origin, at rest, and all coordinates and velocities are finite. *)
Example phoneParticles_shape :
  List.length (getParticlePositions Samples.phoneParticles) = 1500%nat
  /\ firstn 3 (getParticlePositions Samples.phoneParticles) = [0; 0; 0]
  /\ firstn 3 (Samples.velocitiesOf Samples.phoneParticles) = [0; 0; 0]
  /\ mousePosition Samples.phoneParticles = (0, 0)
  /\ forallb is_finite (getParticlePositions Samples.phoneParticles) = true
  /\ forallb is_finite (Samples.velocitiesOf Samples.phoneParticles) = true.
Proof. vm_compute. repeat split. Qed.

(** C8.  The divisor of the mouse-repulsion branch can be zero.  For the
    500-particle system whose first particle sits at the origin at rest,
    with the pointer still at (0, 0), [update] takes the branch
    [distance < 3] for that particle with [distance] equal to 0; [dx /
    distance] is 0 / 0, and the x and y coordinates of the particle are
    assigned NaN. *)
Theorem update_divides_by_zero :
  let p := Samples.phoneParticles in
  let pos := drift (Samples.velocitiesOf p) 0 (getParticlePositions p) in
  lt (distance (mousePosition p) 0 pos) 3 = true
  /\ PrimFloat.eqb (distance (mousePosition p) 0 pos) 0 = true
  /\ is_nan (offsetX (mousePosition p) 0 pos
             / distance (mousePosition p) 0 pos) = true
  /\ is_nan (aget (getParticlePositions (update 0.016 p)) 0) = true
  /\ is_nan (aget (getParticlePositions (update 0.016 p)) 1) = true.
Proof. vm_compute. repeat split. Qed.

(** The second system: the first particle is at (5, -5, 0); its velocity,
    about 2e-7 per frame, is less than half the spacing of binary32 numbers
    near 5, so the floating movement stores 5 and -5 again; the pointer is
    at (0.5, -0.5), which [update] scales to (5, -5). *)
Example pointedParticles_shape :
  let p := Samples.pointedParticles in
  firstn 3 (getParticlePositions p) = [5; -5; 0]
  /\ mousePosition p = (0.5, -0.5)
  /\ lt 0 (aget (Samples.velocitiesOf p) 0) = true
  /\ lt (aget (Samples.velocitiesOf p) 0) 0.00000021 = true
  /\ firstn 2 (drift (Samples.velocitiesOf p) 0 (getParticlePositions p))
     = [5; -5]
  /\ PrimFloat.eqb
       (distance (mousePosition p) 0
          (drift (Samples.velocitiesOf p) 0 (getParticlePositions p))) 0
     = true.
Proof. vm_compute. repeat split. Qed.

(** C9.  [update] does not re-establish the bounds on every frame.  In the
    second system every coordinate and velocity is finite; one call of
    [update] leaves the first particle with an x coordinate for which
    neither [-10 <= x] nor [x <= 10] holds, and likewise for y; a further
    call does not repair it. *)
Theorem update_leaves_bounds :
  let p := Samples.pointedParticles in
  let after := getParticlePositions (update 0.016 p) in
  let later := getParticlePositions (update 0.016 (update 0.016 p)) in
  forallb is_finite (getParticlePositions p) = true
  /\ forallb is_finite (Samples.velocitiesOf p) = true
  /\ ge (aget after 0) (-10) = false
  /\ le (aget after 0) 10 = false
  /\ ge (aget after 1) (-10) = false
  /\ le (aget after 1) 10 = false
  /\ ge (aget later 0) (-10) = false
  /\ le (aget later 0) 10 = false.
Proof. vm_compute. repeat split. Qed.

End ParticleUpdate.

(* ================================================================== *)
(** ** The tier along a session                                         *)
(* ================================================================== *)

Section TierTransitions.

Import Js PerformanceMonitor TierSpec.
Open Scope string_scope.

Lemma reduceQuality_high (m : t) :
  currentQuality m = "high" -> currentQuality (reduceQuality m) = "medium".
Proof. intro H. unfold reduceQuality. rewrite H. reflexivity. Qed.

Lemma reduceQuality_medium (m : t) :
  currentQuality m = "medium" -> currentQuality (reduceQuality m) = "low".
Proof. intro H. unfold reduceQuality. rewrite H. reflexivity. Qed.

(** A check either leaves the tier alone or moves it one step down. *)
Lemma checkPerformanceThreshold_steps_down (now : float) (m : t) :
  isTier (currentQuality m) = true ->
  currentQuality (checkPerformanceThreshold now m) = currentQuality m
  \/ currentQuality (checkPerformanceThreshold now m)
     = nextLower (currentQuality m).
Proof.
  intro H. unfold checkPerformanceThreshold.
  destruct (_ || _) eqn:G; [left; reflexivity |].
  destruct (lt _ _); [left; reflexivity |].
  destruct (5 <=? _)%nat; [| left; reflexivity].
  destruct (lt _ _); [| left; reflexivity].
  destruct (3 <=? _)%Z; [| left; reflexivity].
  right. cbn [withLastAdjustment withWarnings currentQuality].
  tier_cases H.
  - rewrite reduceQuality_high by exact H. rewrite H. reflexivity.
  - rewrite reduceQuality_medium by exact H. rewrite H. reflexivity.
  - rewrite H in G. discriminate.
  - rewrite H in G. discriminate.
Qed.

Lemma rank_nextLower (q : string) : rank (nextLower q) <= rank q.
Proof.
  unfold nextLower.
  destruct (q =? "high") eqn:E1.
  - apply String.eqb_eq in E1. subst q. cbn. lia.
  - destruct (q =? "medium") eqn:E2; [| lia].
    apply String.eqb_eq in E2. subst q. cbn. lia.
Qed.

Lemma automatic_step (m : t) (e : Event) :
  automatic e = true ->
  isTier (currentQuality m) = true ->
  isTier (currentQuality (step m e)) = true
  /\ rank (currentQuality (step m e)) <= rank (currentQuality m).
Proof.
  intros A H. destruct e; try discriminate; cbn [step].
  - split; [apply updateMetrics_isTier; exact H |].
    unfold updateMetrics. destruct (ge _ _); [| cbn; lia].
    destruct (checkPerformanceThreshold_steps_down checkTime
                (takeSample currentTime (countFrame currentTime m)) H)
      as [E | E]; rewrite E; cbn [takeSample countFrame currentQuality].
    + lia.
    + apply rank_nextLower.
  - split; [apply checkPerformanceThreshold_isTier; exact H |].
    destruct (checkPerformanceThreshold_steps_down currentTime m H)
      as [E | E]; rewrite E; [lia | apply rank_nextLower].
  - cbn in A. subst matches. split; [reflexivity |]. cbn. lia.
Qed.

Lemma automatic_run (es : list Event) (m : t) :
  forallb automatic es = true ->
  isTier (currentQuality m) = true ->
  isTier (currentQuality (run es m)) = true
  /\ rank (currentQuality (run es m)) <= rank (currentQuality m).
Proof.
  revert m. induction es as [| e es IH]; intros m A H.
  - split; [exact H | cbn; lia].
  - cbn [forallb] in A. apply andb_true_iff in A. destruct A as [Ae Aes].
    destruct (automatic_step m e Ae H) as [H1 R1].
    destruct (IH (step m e) Aes H1) as [H2 R2].
    change (run (e :: es) m) with (run es (step m e)).
    split; [exact H2 | lia].
Qed.

Lemma run_app (es1 es2 : list Event) (m : t) :
  run (es1 ++ es2) m = run es2 (run es1 m).
Proof. unfold run. apply fold_left_app. Qed.

(** C2, as the code has it.  Along every session made of [updateMetrics]
    and [checkPerformanceThreshold] steps and of notifications that
    reduced motion was switched on, the tier stays one of the four and
    never rises in the order high > medium > low > disabled: after any
    further steps [es2] it is at most what it was after [es1]. *)
Theorem quality_never_rises_automatically
  (o : OptionsArg) (b : Browser) (t0 t1 : float) (es1 es2 : list Event) :
  forallb automatic es1 = true ->
  forallb automatic es2 = true ->
  isTier (currentQuality (run (es1 ++ es2) (new o b t0 t1))) = true
  /\ rank (currentQuality (run (es1 ++ es2) (new o b t0 t1)))
     <= rank (currentQuality (run es1 (new o b t0 t1))).
Proof.
  intros A1 A2. rewrite run_app.
  destruct (automatic_run es1 (new o b t0 t1) A1 (new_isTier o b t0 t1))
    as [H1 _].
  apply automatic_run; assumption.
Qed.

Lemma quality_never_rises_automatically_witness :
  rank (currentQuality
          (run (Samples.slowFrames 150 50 ++ Samples.slowFrames 25 6050)
             (new noOptions Samples.desktop 10 10)))
  <= rank (currentQuality
             (run (Samples.slowFrames 150 50)
                (new noOptions Samples.desktop 10 10))).
Proof.
  apply (quality_never_rises_automatically noOptions Samples.desktop 10 10
           (Samples.slowFrames 150 50) (Samples.slowFrames 25 6050));
    vm_compute; reflexivity.
Defined.

(** C2 as stated fails: a notification that reduced motion was switched
    off raises the tier.  A desktop monitor constructed under the
    reduced-motion preference is 'disabled'; the notification takes it to
    'high'. *)
Lemma preference_cleared_raises_tier :
  let m := new noOptions Samples.desktopReducedMotion 0 0 in
  currentQuality m = "disabled"
  /\ currentQuality (run [ReducedMotionChange false] m) = "high"
  /\ ~ rank (currentQuality (run [ReducedMotionChange false] m))
       <= rank (currentQuality m).
Proof. cbv zeta. repeat split. vm_compute. lia. Qed.

Lemma disabled_absorbs_step (m : t) (e : Event) :
  performanceStep e = true ->
  currentQuality m = "disabled" ->
  currentQuality (step m e) = "disabled".
Proof.
  intros P H. destruct e; try discriminate; cbn [step].
  - unfold updateMetrics. destruct (ge _ _); [| exact H].
    unfold checkPerformanceThreshold.
    cbn [takeSample countFrame currentQuality]. rewrite H. exact H.
  - unfold checkPerformanceThreshold. rewrite H. exact H.
Qed.

(** C4, as the code has it.  'disabled' is absorbing for the performance
    check: a [checkPerformanceThreshold] call returns the monitor as it
    was, and no session of [updateMetrics] and [checkPerformanceThreshold]
    calls changes the tier.  A notification that reduced motion was
    switched off recomputes the tier from the device classification
    (desktop gives high, tablet medium, mobile low) when WebGL is
    supported, and leaves 'disabled' in place when it is not. *)
Theorem disabled_absorbing_until_cleared :
  (forall (now : float) (m : t),
      currentQuality m = "disabled" ->
      checkPerformanceThreshold now m = m)
  /\ (forall (es : list Event) (m : t),
         forallb performanceStep es = true ->
         currentQuality m = "disabled" ->
         currentQuality (run es m) = "disabled")
  /\ (forall m : t,
         webGLSupported m = true ->
         currentQuality (onReducedMotionChange false m)
         = tierForDevice (deviceType m))
  /\ (forall m : t,
         webGLSupported m = false ->
         currentQuality (onReducedMotionChange false m) = "disabled").
Proof.
  repeat split.
  - intros now m H. unfold checkPerformanceThreshold. rewrite H.
    reflexivity.
  - intro es. induction es as [| e es IH]; intros m P H; [exact H |].
    cbn [forallb] in P. apply andb_true_iff in P. destruct P as [Pe Pes].
    change (run (e :: es) m) with (run es (step m e)).
    apply IH; [exact Pes |].
    apply disabled_absorbs_step; assumption.
  - intros m W. unfold onReducedMotionChange.
    rewrite currentQuality_emit.
    cbn [withReducedMotion reducedMotionPreferred].
    rewrite setInitialQuality_value.
    cbn [withReducedMotion webGLSupported reducedMotionPreferred
           deviceType].
    rewrite W. reflexivity.
  - intros m W. unfold onReducedMotionChange.
    rewrite currentQuality_emit.
    cbn [withReducedMotion reducedMotionPreferred].
    rewrite setInitialQuality_value.
    cbn [withReducedMotion webGLSupported reducedMotionPreferred
           deviceType].
    rewrite W. reflexivity.
Qed.

Lemma disabled_absorbing_until_cleared_witness :
  currentQuality
    (run (Samples.slowFrames 200 50)
       (new noOptions Samples.desktopReducedMotion 10 10))
  = "disabled"
  /\ currentQuality
       (onReducedMotionChange false
          (new noOptions Samples.desktopReducedMotion 10 10))
     = "high"
  /\ currentQuality
       (onReducedMotionChange false
          (new noOptions Samples.desktopNoWebGL 10 10))
     = "disabled".
Proof.
  destruct disabled_absorbing_until_cleared as [_ [Hrun [Hon Hoff]]].
  split; [| split].
  - apply Hrun; vm_compute; reflexivity.
  - rewrite Hon; vm_compute; reflexivity.
  - apply Hoff. vm_compute. reflexivity.
Defined.

(** C4 as stated fails: without WebGL the notification that reduced
    motion was switched off does not give the tier of the device class.
    The monitor of a desktop browser whose WebGL probe finds no context
    stays 'disabled', where the device class asks for 'high'. *)
Lemma preference_cleared_without_webgl :
  let m := new noOptions Samples.desktopNoWebGL 0 0 in
  deviceType m = "desktop"
  /\ tierForDevice (deviceType m) = "high"
  /\ currentQuality (onReducedMotionChange false m) = "disabled"
  /\ currentQuality (onReducedMotionChange false m)
     <> tierForDevice (deviceType m).
Proof. cbv zeta. repeat split. vm_compute. discriminate. Qed.

End TierTransitions.

(* ================================================================== *)
(** ** The downgrade rule                                               *)
(* ================================================================== *)

Section DowngradeRule.

Import Js PerformanceMonitor TierSpec.
Open Scope string_scope.
Open Scope nat_scope.


















End DowngradeRule.

(* ================================================================== *)
(** ** AnimationManager.start                                           *)
(* ================================================================== *)

Section StartGuards.

Import Js AnimationManager.

Lemma animate_flags (f : Frame) (a : t) :
  isInitialized (fst (animate f a)) = isInitialized a
  /\ isRunning (fst (animate f a)) = isRunning a.
Proof.
  unfold animate.
  destruct (isRunning a) eqn:R; cbn [negb]; [| cbn; auto].
  destruct (performanceMonitor a) eqn:P; cbn [performanceMonitor].
  - cbn [renderer]. destruct (renderer a); cbn; auto.
  - cbn [options]. destruct (enablePerformanceMonitoring (options a)).
    + unfold updatePerformanceMetrics. cbn [lastTime frameCount].
      destruct (ge _ _); cbn [renderer]; destruct (renderer a); cbn; auto.
    + cbn [renderer]. destruct (renderer a); cbn; auto.
Qed.

Lemma start_flags (f : Frame) (a : t) :
  isInitialized (fst (start f a)) = isInitialized a
  /\ isRunning (fst (start f a)) = isInitialized a || isRunning a.
Proof.
  unfold start.
  destruct (isInitialized a) eqn:I; cbn [negb orb].
  - destruct (isRunning a) eqn:R; [cbn; auto |].
    pose proof (animate_flags f (setRunning true a)) as [Hi Hr].
    destruct (animate f (setRunning true a)) as [a' [u |]];
      cbn [fst] in *; rewrite Hi, Hr; cbn; auto.
  - cbn. rewrite I. destruct (isRunning a); auto.
Qed.

(** A manager that runs has been initialised. *)
Lemma running_is_initialized_step (a : t) (x : Action) :
  (isRunning a = true -> isInitialized a = true) ->
  isRunning (step a x) = true -> isInitialized (step a x) = true.
Proof.
  intros Inv. destruct x; cbn [step].
  - unfold init.
    destruct (negb _); [exact Inv |].
    destruct (rendererThrows e); [exact Inv | reflexivity].
  - destruct (start_flags f a) as [Hi Hr]. rewrite Hi, Hr.
    destruct (isInitialized a), (isRunning a); cbn; auto.
  - discriminate.
  - destruct (animate_flags f a) as [Hi Hr]. rewrite Hi, Hr. exact Inv.
  - unfold onAnimationVisibilityChange.
    destruct visible.
    + destruct (isRunning a) eqn:R; cbn [negb]; [rewrite R; exact Inv |].
      destruct (start_flags f a) as [Hi Hr]. rewrite Hi, Hr, R.
      destruct (isInitialized a); cbn; auto.
    + destruct (isRunning a) eqn:R; [discriminate | rewrite R; exact Inv].
  - discriminate.
Qed.

Lemma running_is_initialized (xs : list Action) (a : t) :
  (isRunning a = true -> isInitialized a = true) ->
  isRunning (run xs a) = true -> isInitialized (run xs a) = true.
Proof.
  revert a. induction xs as [| x xs IH]; intros a Inv; [exact Inv |].
  change (run (x :: xs) a) with (run xs (step a x)).
  apply IH. apply running_is_initialized_step. exact Inv.
Qed.

(** C10.  After any session of a freshly constructed manager: when
    [isInitialized] is false, [start] returns false, changes nothing, and
    [isRunning] is false before and after the call; when the manager is
    running, [start] returns true and changes nothing, so that calling it
    again gives the same result. *)
Theorem start_guards
  (o : Options) (b : Browser) (now : float) (xs : list Action) (f : Frame) :
  let a := run xs (new o b now) in
  (isInitialized a = false ->
   start f a = (a, Return false)
   /\ isRunning a = false
   /\ isRunning (fst (start f a)) = false)
  /\ (isRunning a = true ->
      start f a = (a, Return true)
      /\ forall f' : Frame, start f' (fst (start f a)) = start f a).
Proof.
  intro a.
  assert (Inv : isRunning a = true -> isInitialized a = true).
  { apply running_is_initialized. discriminate. }
  split.
  - intro I.
    assert (E : start f a = (a, Return false)).
    { unfold start. rewrite I. reflexivity. }
    assert (R : isRunning a = false).
    { destruct (isRunning a); [| reflexivity].
      rewrite Inv in I by reflexivity. discriminate. }
    rewrite E. auto.
  - intro R.
    assert (E : forall g : Frame, start g a = (a, Return true)).
    { intro g. unfold start. rewrite (Inv R), R. reflexivity. }
    split; [apply E |].
    intro f'. rewrite (E f). cbn [fst]. apply E.
Qed.

Lemma start_guards_witness :
  start Samples.firstFrame (new defaultOptions Samples.desktop 0)
  = (new defaultOptions Samples.desktop 0, Return false)
  /\ start Samples.secondFrame
       (run [ Init Samples.desktopInit; Start Samples.firstFrame ]
          (new defaultOptions Samples.desktop 0))
     = (run [ Init Samples.desktopInit; Start Samples.firstFrame ]
          (new defaultOptions Samples.desktop 0),
        Return true).
Proof.
  split.
  - destruct (start_guards defaultOptions Samples.desktop 0%float []
                Samples.firstFrame) as [Hoff _].
    apply Hoff. reflexivity.
  - destruct (start_guards defaultOptions Samples.desktop 0%float
                [ Init Samples.desktopInit; Start Samples.firstFrame ]
                Samples.secondFrame) as [_ Hon].
    apply Hon. vm_compute. reflexivity.
Defined.

End StartGuards.

(* ================================================================== *)
(** ** PerformanceMonitor: what a session keeps                         *)
(* ================================================================== *)

(** Splitting every conditional of the goal. *)
Ltac split_ifs :=
  repeat match goal with
         | |- context [if ?c then _ else _] => destruct c eqn:?
         end.

Section MonitorInvariants.

Import Js PerformanceMonitor TierSpec Sessions.
Open Scope string_scope.
Open Scope nat_scope.

(** What no method writes to. *)
Lemma step_constants (m : t) (e : Event) :
  options (step m e) = options m
  /\ deviceType (step m e) = deviceType m
  /\ webGLSupported (step m e) = webGLSupported m
  /\ maxHistoryLength (step m e) = maxHistoryLength m
  /\ initStartTime (step m e) = initStartTime m.
Proof.
  destruct e; cbn [step];
    unfold updateMetrics, checkPerformanceThreshold, reduceQuality,
      onReducedMotionChange, setInitialQuality, onVisibilityChange,
      setQuality, dispose, emitQualityChange;
    split_ifs; repeat split; reflexivity.
Qed.

Lemma run_constants (es : list Event) (m : t) :
  options (run es m) = options m
  /\ deviceType (run es m) = deviceType m
  /\ webGLSupported (run es m) = webGLSupported m
  /\ maxHistoryLength (run es m) = maxHistoryLength m
  /\ initStartTime (run es m) = initStartTime m.
Proof.
  revert m. induction es as [| e es IH]; intro m; [repeat split |].
  change (run (e :: es) m) with (run es (step m e)).
  destruct (IH (step m e)) as (A & B & C & D & E).
  destruct (step_constants m e) as (A' & B' & C' & D' & E').
  repeat split; congruence.
Qed.

End MonitorInvariants.

(* ================================================================== *)
(** ** PerformanceMonitor: bounds kept by every session                 *)
(* ================================================================== *)

Section MonitorBounds.

Import Js PerformanceMonitor TierSpec Sessions.
Open Scope string_scope.
Open Scope nat_scope.

(** The four ways a check can end, with the guards that lead there. *)
Lemma checkPerformanceThreshold_cases (now : float) (m : t) :
  checkPerformanceThreshold now m = m
  \/ checkPerformanceThreshold now m = withWarnings 0 m
  \/ (5 <= List.length (fpsHistory m)
      /\ (performanceWarningCount m + 1 < 3)%Z
      /\ checkPerformanceThreshold now m
         = withWarnings (performanceWarningCount m + 1) m)
  \/ (5 <= List.length (fpsHistory m)
      /\ (3 <= performanceWarningCount m + 1)%Z
      /\ currentQuality m <> "disabled"
      /\ currentQuality m <> "low"
      /\ checkPerformanceThreshold now m
         = withLastAdjustment now
             (withWarnings 0
                (reduceQuality
                   (withWarnings (performanceWarningCount m + 1) m)))).
Proof.
  unfold checkPerformanceThreshold.
  destruct (currentQuality m =? "disabled")%string eqn:D; [left; reflexivity |].
  destruct (currentQuality m =? "low")%string eqn:L; [left; reflexivity |].
  cbn [orb].
  destruct (lt _ _); [left; reflexivity |].
  destruct (5 <=? List.length (fpsHistory m)) eqn:H; [| left; reflexivity].
  apply Nat.leb_le in H.
  destruct (lt _ _); [| right; left; reflexivity].
  cbn [withWarnings performanceWarningCount].
  destruct (3 <=? performanceWarningCount m + 1)%Z eqn:W.
  - apply Z.leb_le in W. right; right; right.
    apply String.eqb_neq in D. apply String.eqb_neq in L. auto.
  - apply Z.leb_gt in W. right; right; left. auto.
Qed.

Lemma reduceQuality_fields (m : t) :
  fpsHistory (reduceQuality m) = fpsHistory m
  /\ performanceWarningCount (reduceQuality m) = performanceWarningCount m
  /\ maxHistoryLength (reduceQuality m) = maxHistoryLength m.
Proof. unfold reduceQuality. split_ifs; repeat split. Qed.

Lemma checkPerformanceThreshold_history (now : float) (m : t) :
  fpsHistory (checkPerformanceThreshold now m) = fpsHistory m.
Proof.
  destruct (checkPerformanceThreshold_cases now m)
    as [E | [E | [(_ & _ & E) | (_ & _ & _ & _ & E)]]]; rewrite E;
    try reflexivity.
  cbn [withLastAdjustment withWarnings fpsHistory].
  destruct (reduceQuality_fields
              (withWarnings (performanceWarningCount m + 1) m)) as (F & _).
  rewrite F. reflexivity.
Qed.

Lemma takeSample_length (currentTime : float) (m : t) :
  List.length (fpsHistory (takeSample currentTime m))
  = if maxHistoryLength m <? List.length (fpsHistory m) + 1
    then List.length (fpsHistory m)
    else List.length (fpsHistory m) + 1.
Proof.
  unfold takeSample. cbn [fpsHistory].
  rewrite length_app. cbn [List.length].
  destruct (maxHistoryLength m <? _); [| rewrite length_app; reflexivity].
  destruct (fpsHistory m) as [| x h]; [reflexivity |].
  cbn [app tl List.length]. rewrite length_app. cbn. lia.
Qed.

(** The history after one event, for a monitor that keeps at most 60
    samples. *)
Lemma step_history_bound (m : t) (e : Event) :
  maxHistoryLength m = 60 ->
  List.length (fpsHistory m) <= 60 ->
  List.length (fpsHistory (step m e)) <= 60.
Proof.
  intros M H. destruct e; cbn [step].
  - unfold updateMetrics.
    change (lastTime (countFrame currentTime m)) with (lastTime m).
    destruct (ge _ _); [| exact H].
    rewrite checkPerformanceThreshold_history, takeSample_length.
    cbn [countFrame maxHistoryLength fpsHistory]. rewrite M.
    destruct (60 <? _) eqn:E; [exact H |].
    apply Nat.ltb_ge in E. lia.
  - rewrite checkPerformanceThreshold_history. exact H.
  - destruct (reduceQuality_fields m) as (E & _). rewrite E. exact H.
  - unfold onReducedMotionChange, setInitialQuality. split_ifs; exact H.
  - unfold onVisibilityChange. split_ifs; exact H.
  - unfold setQuality. split_ifs; exact H.
  - cbn. lia.
Qed.

(** X1.  The FPS history never holds more than 60 samples: after every
    session of a constructed monitor, whatever calls it is made of,
    [fpsHistory] has at most [maxHistoryLength = 60] entries. *)
Theorem history_never_exceeds_sixty
  (o : OptionsArg) (b : Browser) (t0 t1 : float) (es : list Event) :
  List.length (fpsHistory (run es (new o b t0 t1))) <= 60.
Proof.
  assert (G : forall (es : list Event) (m : t),
             maxHistoryLength m = 60 ->
             List.length (fpsHistory m) <= 60 ->
             List.length (fpsHistory (run es m)) <= 60).
  { clear es. intro es. induction es as [| e es IH]; intros m M H.
    - exact H.
    - change (run (e :: es) m) with (run es (step m e)).
      apply IH.
      + destruct (step_constants m e) as (_ & _ & _ & E & _).
        rewrite E. exact M.
      + apply step_history_bound; assumption. }
  apply G.
  - unfold new, setInitialQuality. split_ifs; reflexivity.
  - unfold new, setInitialQuality. split_ifs; cbn; lia.
Qed.

Lemma step_warnings_range (m : t) (e : Event) :
  (0 <= performanceWarningCount m <= 2)%Z ->
  (0 <= performanceWarningCount (step m e) <= 2)%Z.
Proof.
  intro H.
  assert (C : forall now m,
             (0 <= performanceWarningCount m <= 2)%Z ->
             (0 <= performanceWarningCount
                     (checkPerformanceThreshold now m) <= 2)%Z).
  { intros now x Hx.
    destruct (checkPerformanceThreshold_cases now x)
      as [E | [E | [(_ & W & E) | (_ & _ & _ & _ & E)]]]; rewrite E.
    - exact Hx.
    - cbn. lia.
    - cbn [withWarnings performanceWarningCount]. lia.
    - cbn. lia. }
  destruct e; cbn [step].
  - unfold updateMetrics.
    change (lastTime (countFrame currentTime m)) with (lastTime m).
    destruct (ge _ _); [| exact H]. apply C. exact H.
  - apply C. exact H.
  - destruct (reduceQuality_fields m) as (_ & E & _). rewrite E. exact H.
  - unfold onReducedMotionChange, setInitialQuality. split_ifs; exact H.
  - unfold onVisibilityChange. split_ifs; exact H.
  - unfold setQuality. split_ifs; exact H.
  - exact H.
Qed.

(** X2.  The warning counter stays between 0 and 2 between calls: after
    every session of a constructed monitor, with any options,
    [performanceWarningCount] is 0, 1 or 2 (the third warning resets
    it). *)
Theorem warning_count_in_range
  (o : OptionsArg) (b : Browser) (t0 t1 : float) (es : list Event) :
  (0 <= performanceWarningCount (run es (new o b t0 t1)) <= 2)%Z.
Proof.
  assert (G : forall (es : list Event) (m : t),
             (0 <= performanceWarningCount m <= 2)%Z ->
             (0 <= performanceWarningCount (run es m) <= 2)%Z).
  { clear es. intro es. induction es as [| e es IH]; intros m H.
    - exact H.
    - change (run (e :: es) m) with (run es (step m e)).
      apply IH. apply step_warnings_range. exact H. }
  apply G. unfold new, setInitialQuality. split_ifs; cbn; lia.
Qed.

End MonitorBounds.

(* ================================================================== *)
(** ** PerformanceMonitor: downgrades and their announcements           *)
(* ================================================================== *)

Section MonitorAnnouncements.

Import Js PerformanceMonitor TierSpec Sessions.
Open Scope string_scope.
Open Scope nat_scope.

(** [reduceQuality] outside the list ['high', 'medium', 'low']:
    [indexOf] gives -1 and the tier becomes the first of the list. *)
Lemma reduceQuality_off_list (m : t) :
  currentQuality m <> "high" ->
  currentQuality m <> "medium" ->
  currentQuality m <> "low" ->
  reduceQuality m = emitQualityChange (withQuality "high" m).
Proof.
  intros H M L. unfold reduceQuality, qualityOrder. cbn [indexOf].
  apply String.eqb_neq in H. apply String.eqb_neq in M.
  apply String.eqb_neq in L.
  rewrite String.eqb_sym in H. rewrite String.eqb_sym in M.
  rewrite String.eqb_sym in L.
  rewrite H, M, L. reflexivity.
Qed.

(** X3.  Called on its own, [reduceQuality] raises a monitor that is not
    on the list high, medium, low: from 'disabled' (or any other string)
    the tier becomes 'high' and the change is announced; on 'low' nothing
    happens at all. *)
Theorem reduceQuality_off_list_gives_high :
  (forall m : t,
      currentQuality m <> "high" ->
      currentQuality m <> "medium" ->
      currentQuality m <> "low" ->
      currentQuality (reduceQuality m) = "high"
      /\ dispatched (reduceQuality m)
         = AnimationQualityChange "high"
             (Settings (mkSettings 2000 true true))
           :: dispatched m)
  /\ (forall m : t, currentQuality m = "low" -> reduceQuality m = m).
Proof.
  split.
  - intros m H M L. rewrite (reduceQuality_off_list m H M L).
    split; reflexivity.
  - intros m L. unfold reduceQuality. rewrite L. reflexivity.
Qed.

Lemma reduceQuality_off_list_gives_high_witness :
  currentQuality
    (reduceQuality (new noOptions Samples.desktopReducedMotion 0 0))
  = "high"
  /\ reduceQuality (new noOptions Samples.phone 0 0)
     = new noOptions Samples.phone 0 0.
Proof.
  destruct reduceQuality_off_list_gives_high as [Hoff Hlow].
  split.
  - apply Hoff; vm_compute; discriminate.
  - apply Hlow. reflexivity.
Defined.

Lemma reduceQuality_from_high (m : t) :
  currentQuality m = "high" ->
  reduceQuality m = emitQualityChange (withQuality "medium" m).
Proof. intro H. unfold reduceQuality. rewrite H. reflexivity. Qed.

Lemma reduceQuality_from_medium (m : t) :
  currentQuality m = "medium" ->
  reduceQuality m = emitQualityChange (withQuality "low" m).
Proof. intro H. unfold reduceQuality. rewrite H. reflexivity. Qed.




(** X5.  [setQuality] accepts exactly the four tiers and the names an
    object literal inherits from [Object.prototype]: for those it sets
    [currentQuality] to the argument and dispatches one event; for every
    other string it returns the monitor as it was, with no event. *)
Theorem setQuality_accepts_exactly (quality : string) (m : t) :
  (isTier quality = true \/ In quality objectPrototypeNames ->
   currentQuality (setQuality quality m) = quality
   /\ dispatched (setQuality quality m)
      = AnimationQualityChange quality
          (getQualitySettings (setQuality quality m))
        :: dispatched m)
  /\ (isTier quality = false ->
      ~ In quality objectPrototypeNames ->
      setQuality quality m = m).
Proof.
  split.
  - intros [T | I].
    + tier_cases T; subst quality; split; reflexivity.
    + unfold objectPrototypeNames in I. cbn [In] in I.
      repeat (destruct I as [I | I]; [subst quality; split; reflexivity |]).
      contradiction.
  - intros T N. unfold setQuality.
    unfold isTier, tiers in T. cbn [existsb] in T.
    apply orb_false_iff in T. destruct T as [H T].
    apply orb_false_iff in T. destruct T as [M T].
    apply orb_false_iff in T. destruct T as [L T].
    apply orb_false_iff in T. destruct T as [D _].
    rewrite D. cbn [orb].
    unfold getProp, qualityLevels. cbn [assoc].
    rewrite String.eqb_sym in H. rewrite String.eqb_sym in M.
    rewrite String.eqb_sym in L. rewrite H, M, L.
    destruct (existsb (String.eqb quality) objectPrototypeNames) eqn:E;
      [| reflexivity].
    exfalso. apply N. apply existsb_exists in E.
    destruct E as (x & Hin & Heq). apply String.eqb_eq in Heq.
    subst x. exact Hin.
Qed.

Lemma setQuality_accepts_exactly_witness :
  currentQuality (setQuality "low" (new noOptions Samples.desktop 0 0))
  = "low"
  /\ setQuality "ultra" (new noOptions Samples.desktop 0 0)
     = new noOptions Samples.desktop 0 0.
Proof.
  split.
  - apply (setQuality_accepts_exactly "low"
             (new noOptions Samples.desktop 0 0)).
    left. reflexivity.
  - apply (setQuality_accepts_exactly "ultra"
             (new noOptions Samples.desktop 0 0)).
    + reflexivity.
    + cbn. intuition discriminate.
Defined.

End MonitorAnnouncements.

(* ================================================================== *)
(** ** PerformanceMonitor: capability reports                           *)
(* ================================================================== *)

Section MonitorReports.

Import Js PerformanceMonitor TierSpec Sessions.
Open Scope string_scope.
Open Scope nat_scope.

Lemma new_fields (o : OptionsArg) (b : Browser) (t0 t1 : float) :
  webGLSupported (new o b t0 t1) = detectWebGLSupport b
  /\ reducedMotionPreferred (new o b t0 t1)
     = detectReducedMotionPreference b
  /\ deviceType (new o b t0 t1) = detectDeviceType b
  /\ dispatched (new o b t0 t1) = []
  /\ fpsHistory (new o b t0 t1) = []
  /\ maxHistoryLength (new o b t0 t1) = 60
  /\ performanceWarningCount (new o b t0 t1) = 0%Z.
Proof. unfold new, setInitialQuality. split_ifs; repeat split. Qed.

Lemma new_quality (o : OptionsArg) (b : Browser) (t0 t1 : float) :
  currentQuality (new o b t0 t1)
  = if negb (detectWebGLSupport b) || detectReducedMotionPreference b
    then "disabled" else tierForDevice (detectDeviceType b).
Proof. unfold new. rewrite setInitialQuality_value. reflexivity. Qed.

Lemma tierForDevice_enabled (d : string) : tierForDevice d <> "disabled".
Proof. unfold tierForDevice. split_ifs; discriminate. Qed.

Lemma new_enables (o : OptionsArg) (b : Browser) (t0 t1 : float) :
  shouldEnableAnimations (new o b t0 t1)
  = detectWebGLSupport b && negb (detectReducedMotionPreference b).
Proof.
  destruct (new_fields o b t0 t1) as (W & R & _).
  pose proof (new_quality o b t0 t1) as Q.
  unfold shouldEnableAnimations. rewrite W, R, Q.
  destruct (detectWebGLSupport b), (detectReducedMotionPreference b);
    cbn [negb orb andb]; try reflexivity.
  pose proof (tierForDevice_enabled (detectDeviceType b)) as N.
  apply String.eqb_neq in N. rewrite N. reflexivity.
Qed.

Lemma new_fallback (o : OptionsArg) (b : Browser) (t0 t1 : float) :
  getFallbackConfig (new o b t0 t1)
  = if negb (detectWebGLSupport b)
    then Some (mkFallback "css" "webgl_unsupported" true)
    else if detectReducedMotionPreference b
    then Some (mkFallback "static" "reduced_motion_preferred" false)
    else None.
Proof.
  destruct (new_fields o b t0 t1) as (W & R & _).
  unfold getFallbackConfig. rewrite W, R. reflexivity.
Qed.

(** X6.  A freshly constructed monitor enables animations exactly when
    the WebGL probe succeeds and reduced motion is not preferred; when it
    does not, [getFallbackConfig] is never [null]: the reason is
    'webgl_unsupported' when the probe failed, and
    'reduced_motion_preferred' otherwise; when it does, the fallback is
    [null]. *)
Theorem fresh_monitor_fallback
  (o : OptionsArg) (b : Browser) (t0 t1 : float) :
  shouldEnableAnimations (new o b t0 t1)
  = detectWebGLSupport b && negb (detectReducedMotionPreference b)
  /\ (shouldEnableAnimations (new o b t0 t1) = false ->
      exists c,
        getFallbackConfig (new o b t0 t1) = Some c
        /\ reason c = if detectWebGLSupport b
                      then "reduced_motion_preferred"
                      else "webgl_unsupported")
  /\ (shouldEnableAnimations (new o b t0 t1) = true ->
      getFallbackConfig (new o b t0 t1) = None).
Proof.
  rewrite new_enables, new_fallback.
  destruct (detectWebGLSupport b), (detectReducedMotionPreference b);
    cbn [negb andb]; repeat split; eauto; discriminate.
Qed.

Lemma fresh_monitor_fallback_witness :
  exists c,
    getFallbackConfig (new noOptions Samples.desktopNoWebGL 0 0) = Some c
    /\ reason c = "webgl_unsupported".
Proof.
  destruct (fresh_monitor_fallback noOptions Samples.desktopNoWebGL
              0%float 0%float) as (_ & Hoff & _).
  apply Hoff. reflexivity.
Defined.

(** X7.  Without WebGL nothing brings animations back: when the probe of
    the constructor failed, then after every session, including forced
    [setQuality] calls and preference changes, [shouldEnableAnimations] is
    false and [getFallbackConfig] is the CSS fallback. *)
Theorem no_webgl_never_enabled
  (o : OptionsArg) (b : Browser) (t0 t1 : float) (es : list Event) :
  detectWebGLSupport b = false ->
  shouldEnableAnimations (run es (new o b t0 t1)) = false
  /\ getFallbackConfig (run es (new o b t0 t1))
     = Some (mkFallback "css" "webgl_unsupported" true).
Proof.
  intro W.
  destruct (run_constants es (new o b t0 t1)) as (_ & _ & C & _).
  destruct (new_fields o b t0 t1) as (W' & _).
  unfold shouldEnableAnimations, getFallbackConfig.
  rewrite C, W', W. split; reflexivity.
Qed.

Lemma no_webgl_never_enabled_witness :
  currentQuality
    (run [ SetQuality "high" ] (new noOptions Samples.desktopNoWebGL 0 0))
  = "high"
  /\ shouldEnableAnimations
       (run [ SetQuality "high" ]
          (new noOptions Samples.desktopNoWebGL 0 0))
     = false.
Proof.
  split; [reflexivity |].
  apply (no_webgl_never_enabled noOptions Samples.desktopNoWebGL
           0%float 0%float [ SetQuality "high" ]).
  reflexivity.
Defined.

Lemma step_firstFrameTime (m : t) (e : Event) (x : float) :
  firstFrameTime m = Some x -> firstFrameTime (step m e) = Some x.
Proof.
  intro F. destruct e; cbn [step];
    unfold updateMetrics, checkPerformanceThreshold, reduceQuality,
      onReducedMotionChange, setInitialQuality, onVisibilityChange,
      setQuality, dispose, emitQualityChange;
    split_ifs; cbn; try rewrite F; try exact F; reflexivity.
Qed.

(** X8.  The first [updateMetrics] call stamps [firstFrameTime] with its
    clock reading, and nothing changes the stamp afterwards: after every
    further session the stamp, and the load time that [getMetrics]
    reports from it, are the same. *)
Theorem load_time_fixed_by_first_frame :
  (forall (m : t) (currentTime checkTime : float),
      firstFrameTime m = None ->
      firstFrameTime (updateMetrics currentTime checkTime m)
      = Some currentTime)
  /\ (forall (es : list Event) (m : t) (x : float),
         firstFrameTime m = Some x ->
         firstFrameTime (run es m) = Some x
         /\ metricsLoadTime (getMetrics (run es m))
            = metricsLoadTime (getMetrics m)).
Proof.
  split.
  - intros m currentTime checkTime F.
    unfold updateMetrics, checkPerformanceThreshold, reduceQuality,
      emitQualityChange.
    split_ifs; cbn; rewrite F; reflexivity.
  - intros es m x F.
    assert (G : firstFrameTime (run es m) = Some x).
    { revert m F. induction es as [| e es IH]; intros m F; [exact F |].
      change (run (e :: es) m) with (run es (step m e)).
      apply IH. apply step_firstFrameTime. exact F. }
    split; [exact G |].
    destruct (run_constants es m) as (_ & _ & _ & _ & I).
    unfold getMetrics. cbn [metricsLoadTime]. rewrite G, F, I.
    reflexivity.
Qed.

Lemma load_time_fixed_by_first_frame_witness :
  metricsLoadTime
    (getMetrics
       (run (Samples.slowFrames 60 50)
          (new noOptions Samples.desktop 10 10)))
  = metricsLoadTime
      (getMetrics
         (run (Samples.slowFrames 1 50)
            (new noOptions Samples.desktop 10 10))).
Proof.
  destruct load_time_fixed_by_first_frame as [_ H].
  change (Samples.slowFrames 60 50)
    with (Samples.slowFrames 1 50 ++ Samples.slowFrames 59 (50 + 40))%list.
  rewrite run_app.
  apply (H (Samples.slowFrames 59 (50 + 40)%float) _ 50%float).
  reflexivity.
Defined.

End MonitorReports.

(* ================================================================== *)
(** ** PerformanceMonitor: how early a downgrade can come               *)
(* ================================================================== *)

Section FirstDowngrade.

Import Js PerformanceMonitor TierSpec Sessions.
Open Scope string_scope.
Open Scope nat_scope.

Lemma updateMetrics_paced (currentTime checkTime : float) (m : t) :
  paced m ->
  paced (updateMetrics currentTime checkTime m)
  /\ List.length (fpsHistory m)
     <= List.length (fpsHistory (updateMetrics currentTime checkTime m))
  /\ (List.length (fpsHistory (updateMetrics currentTime checkTime m)) < 7 ->
      currentQuality (updateMetrics currentTime checkTime m)
      = currentQuality m
      /\ dispatched (updateMetrics currentTime checkTime m) = dispatched m).
Proof.
  intros (M & C0 & C).
  unfold updateMetrics.
  change (lastTime (countFrame currentTime m)) with (lastTime m).
  destruct (ge _ _);
    [| split; [exact (conj M (conj C0 C))
              | split; [apply Nat.le_refl | auto]]].
  set (s := takeSample currentTime (countFrame currentTime m)).
  assert (Ls : List.length (fpsHistory s)
               = if 60 <? List.length (fpsHistory m) + 1
                 then List.length (fpsHistory m)
                 else List.length (fpsHistory m) + 1).
  { subst s. rewrite takeSample_length.
    cbn [countFrame maxHistoryLength fpsHistory]. rewrite M. reflexivity. }
  assert (Ms : maxHistoryLength s = 60) by exact M.
  assert (Cs : performanceWarningCount s = performanceWarningCount m)
    by reflexivity.
  assert (Qs : currentQuality s = currentQuality m) by reflexivity.
  assert (Ds : dispatched s = dispatched m) by reflexivity.
  assert (Lm : List.length (fpsHistory m) <= List.length (fpsHistory s)).
  { rewrite Ls. destruct (60 <? _); lia. }
  rewrite checkPerformanceThreshold_history.
  destruct (checkPerformanceThreshold_cases checkTime s)
    as [E | [E | [(L5 & W & E) | (L5 & W & _ & _ & E)]]]; rewrite E.
  - split; [| split; [exact Lm | auto]].
    unfold paced. rewrite Ms, Cs. repeat split; lia.
  - split; [| split; [exact Lm | auto]].
    unfold paced. cbn [withWarnings maxHistoryLength performanceWarningCount
                         fpsHistory].
    rewrite Ms. repeat split; lia.
  - split; [| split; [exact Lm | auto]].
    unfold paced. cbn [withWarnings maxHistoryLength performanceWarningCount
                         fpsHistory].
    rewrite Ms, Cs. repeat split; try lia.
    rewrite Ls in *. destruct (60 <? _) eqn:Cap.
    + apply Nat.ltb_lt in Cap. lia.
    + lia.
  - split; [| split; [exact Lm |]].
    + unfold paced.
      cbn [withLastAdjustment withWarnings maxHistoryLength
             performanceWarningCount fpsHistory].
      destruct (reduceQuality_fields
                  (withWarnings (performanceWarningCount s + 1) s))
        as (_ & _ & Mr).
      rewrite Mr. cbn [withWarnings maxHistoryLength].
      rewrite Ms. repeat split; lia.
    + intro Short. exfalso.
      rewrite Cs in W. rewrite Ls in Short.
      destruct (60 <? _) eqn:Cap.
      * apply Nat.ltb_lt in Cap. lia.
      * lia.
Qed.

(** X9.  The animation loop cannot downgrade before the seventh FPS
    sample: along a session made of [updateMetrics] calls only, from a
    constructed monitor with any options, as long as fewer than seven
    samples are held the tier is the initial one and no event has been
    dispatched. *)
Theorem no_downgrade_before_seventh_sample
  (o : OptionsArg) (b : Browser) (t0 t1 : float) (es : list Event) :
  forallb frameOnly es = true ->
  List.length (fpsHistory (run es (new o b t0 t1))) < 7 ->
  currentQuality (run es (new o b t0 t1)) = currentQuality (new o b t0 t1)
  /\ dispatched (run es (new o b t0 t1)) = [].
Proof.
  intros F Short.
  assert (G : forall (es : list Event) (m : t),
             forallb frameOnly es = true ->
             paced m ->
             List.length (fpsHistory m)
             <= List.length (fpsHistory (run es m))
             /\ (List.length (fpsHistory (run es m)) < 7 ->
                 currentQuality (run es m) = currentQuality m
                 /\ dispatched (run es m) = dispatched m)).
  { clear. intro es. induction es as [| e es IH]; intros m F P.
    - split; [apply Nat.le_refl | auto].
    - cbn [forallb] in F. apply andb_true_iff in F. destruct F as [Fe Fes].
      change (run (e :: es) m) with (run es (step m e)).
      destruct e; try discriminate. cbn [step].
      destruct (updateMetrics_paced currentTime checkTime m P)
        as (P' & L & Q).
      destruct (IH _ Fes P') as (L' & Q').
      split; [lia |].
      intro Short. destruct (Q' Short) as (A & B).
      destruct Q as (A' & B'); [lia |].
      split; congruence. }
  destruct (new_fields o b t0 t1) as (_ & _ & _ & D & H & M & C).
  destruct (G es (new o b t0 t1) F) as (_ & Q).
  - unfold paced. rewrite M, C, H. cbn. repeat split; lia.
  - destruct (Q Short) as (A & B). rewrite D in B. auto.
Qed.

Lemma no_downgrade_before_seventh_sample_witness :
  currentQuality
    (run (Samples.slowFrames 170 50) (new noOptions Samples.desktop 10 10))
  = currentQuality (new noOptions Samples.desktop 10 10).
Proof.
  apply (no_downgrade_before_seventh_sample noOptions Samples.desktop
           10%float 10%float (Samples.slowFrames 170 50)).
  - vm_compute. reflexivity.
  - vm_compute. lia.
Defined.

End FirstDowngrade.

(* ================================================================== *)
(** ** PerformanceMonitor: when the cool-down clock restarts            *)
(* ================================================================== *)

Section CoolDownClock.

Import Js PerformanceMonitor TierSpec Sessions.
Open Scope string_scope.

(** X10.  The cool-down clock restarts exactly at downgrades.  For a
    monitor in one of the four tiers, with any options, a check that
    changes the tier stamps [lastQualityAdjustment] with its clock reading
    and clears the warning counter; a check that leaves the tier alone
    leaves [lastQualityAdjustment] alone too, and dispatches nothing. *)
Theorem cooldown_restarts_at_downgrades (now : float) (m : t) :
  isTier (currentQuality m) = true ->
  (currentQuality (checkPerformanceThreshold now m) <> currentQuality m ->
   lastQualityAdjustment (checkPerformanceThreshold now m) = now
   /\ performanceWarningCount (checkPerformanceThreshold now m) = 0%Z)
  /\ (currentQuality (checkPerformanceThreshold now m) = currentQuality m ->
      lastQualityAdjustment (checkPerformanceThreshold now m)
      = lastQualityAdjustment m
      /\ dispatched (checkPerformanceThreshold now m) = dispatched m).
Proof.
  intro T.
  destruct (checkPerformanceThreshold_cases now m)
    as [E | [E | [(_ & _ & E) | (_ & _ & D & L & E)]]]; rewrite E.
  - split; [intro N; exfalso; apply N; reflexivity | auto].
  - split; [intro N; exfalso; apply N; reflexivity | auto].
  - split; [intro N; exfalso; apply N; reflexivity | auto].
  - cbn [withLastAdjustment withWarnings currentQuality
           lastQualityAdjustment performanceWarningCount dispatched].
    split; [auto |].
    intro Same. exfalso. tier_cases T; try contradiction.
    + rewrite reduceQuality_from_high in Same by exact T.
      rewrite T in Same. discriminate.
    + rewrite reduceQuality_from_medium in Same by exact T.
      rewrite T in Same. discriminate.
Qed.

Lemma cooldown_restarts_at_downgrades_witness :
  lastQualityAdjustment
    (checkPerformanceThreshold 7010
       (run (Samples.slowFrames 174 50)
          (new noOptions Samples.desktop 10 10)))
  = 7010%float.
Proof.
  apply (cooldown_restarts_at_downgrades 7010%float
           (run (Samples.slowFrames 174 50)
              (new noOptions Samples.desktop 10 10))).
  - vm_compute. reflexivity.
  - vm_compute. discriminate.
Defined.

End CoolDownClock.

(* ================================================================== *)
(** ** ParticleSystem: arrays, colours, one particle at a time          *)
(* ================================================================== *)

Section ParticleArrays.

Import Js ParticleSystem ParticleSpec.
Open Scope nat_scope.

Lemma length_aset (a : Float32Array) (i : nat) (v : float) :
  List.length (aset a i v) = List.length a.
Proof.
  revert i. induction a as [| x a IH]; intro i; [reflexivity |].
  destruct i; cbn [aset List.length]; [reflexivity | rewrite IH; reflexivity].
Qed.

Lemma aget_aset_other (a : Float32Array) (i k : nat) (v : float) :
  i <> k -> aget (aset a i v) k = aget a k.
Proof.
  unfold aget. revert i k. induction a as [| x a IH]; intros i k N.
  - reflexivity.
  - destruct i, k; cbn [aset nth]; try reflexivity; [lia |].
    apply IH. lia.
Qed.

Lemma aget_aset_same (a : Float32Array) (i : nat) (v : float) :
  i < List.length a -> aget (aset a i v) i = Math_fround v.
Proof.
  unfold aget. revert i. induction a as [| x a IH]; intros i L.
  - cbn in L. lia.
  - destruct i; cbn [aset nth]; [reflexivity |].
    apply IH. cbn in L. lia.
Qed.

End ParticleArrays.

(** Reading an array after stores. *)
Ltac array_reads :=
  repeat first
    [ rewrite aget_aset_same by (rewrite ?length_aset; lia)
    | rewrite aget_aset_other by lia ].

Section ParticleSteps.

Import Js ParticleSystem ParticleSpec.
Open Scope nat_scope.

(** Boundary wrapping is three times the wrapping of one slot. *)
Lemma wrap_by_slots (i : nat) (pos : Float32Array) :
  wrap i pos
  = wrapSlot (i * 3 + 2) (-5) 5
      (wrapSlot (i * 3 + 1) (-10) 10 (wrapSlot (i * 3) (-10) 10 pos)).
Proof. reflexivity. Qed.

Lemma wrapSlot_length (k : nat) (lo hi : float) (pos : Float32Array) :
  List.length (wrapSlot k lo hi pos) = List.length pos.
Proof.
  unfold wrapSlot. split_ifs; rewrite ?length_aset; reflexivity.
Qed.

Lemma wrapSlot_other (k j : nat) (lo hi : float) (pos : Float32Array) :
  k <> j -> aget (wrapSlot k lo hi pos) j = aget pos j.
Proof.
  intro N. unfold wrapSlot. split_ifs; array_reads; reflexivity.
Qed.

Lemma wrapSlot_same (k : nat) (lo hi : float) (pos : Float32Array) :
  k < List.length pos ->
  aget (wrapSlot k lo hi pos) k = wrapCoord lo hi (aget pos k).
Proof.
  intro L. unfold wrapSlot, wrapCoord.
  destruct (gt (aget pos k) hi); array_reads;
    destruct (lt _ lo); array_reads; reflexivity.
Qed.

Lemma drift_length (vel : Float32Array) (i : nat) (pos : Float32Array) :
  List.length (drift vel i pos) = List.length pos.
Proof. unfold drift. rewrite !length_aset. reflexivity. Qed.

Lemma drift_other (vel : Float32Array) (i k : nat) (pos : Float32Array) :
  k <> i * 3 -> k <> i * 3 + 1 -> k <> i * 3 + 2 ->
  aget (drift vel i pos) k = aget pos k.
Proof. intros. unfold drift. array_reads. reflexivity. Qed.

Lemma drift_own (vel : Float32Array) (i : nat) (pos : Float32Array) :
  i * 3 + 2 < List.length pos ->
  tripleAt (drift vel i pos) i
  = ( Math_fround (aget pos (i * 3) + aget vel (i * 3)),
      Math_fround (aget pos (i * 3 + 1) + aget vel (i * 3 + 1)),
      Math_fround (aget pos (i * 3 + 2) + aget vel (i * 3 + 2)) )%float.
Proof.
  intro L. unfold tripleAt, drift. array_reads. reflexivity.
Qed.

Lemma repel_length (cfg : Config) (mouse : float * float) (i : nat)
  (pos : Float32Array) :
  List.length (repel cfg mouse i pos) = List.length pos.
Proof.
  unfold repel. destruct (lt _ _); rewrite ?length_aset; reflexivity.
Qed.

Lemma repel_other (cfg : Config) (mouse : float * float) (i k : nat)
  (pos : Float32Array) :
  k <> i * 3 -> k <> i * 3 + 1 ->
  aget (repel cfg mouse i pos) k = aget pos k.
Proof.
  intros. unfold repel. destruct (lt _ _); array_reads; reflexivity.
Qed.

Lemma stepParticle_length (cfg : Config) (mouse : float * float)
  (vel pos : Float32Array) (i : nat) :
  List.length (stepParticle cfg mouse vel pos i) = List.length pos.
Proof.
  unfold stepParticle. rewrite wrap_by_slots, !wrapSlot_length.
  rewrite repel_length, drift_length. reflexivity.
Qed.

(** A step of particle [i] leaves every other slot alone. *)
Lemma stepParticle_frame (cfg : Config) (mouse : float * float)
  (vel pos : Float32Array) (i k : nat) :
  k <> i * 3 -> k <> i * 3 + 1 -> k <> i * 3 + 2 ->
  aget (stepParticle cfg mouse vel pos i) k = aget pos k.
Proof.
  intros N0 N1 N2. unfold stepParticle.
  rewrite wrap_by_slots, !wrapSlot_other by lia.
  rewrite repel_other by lia. apply drift_other; assumption.
Qed.

Lemma stepParticle_other (cfg : Config) (mouse : float * float)
  (vel pos : Float32Array) (i j : nat) :
  i <> j ->
  tripleAt (stepParticle cfg mouse vel pos i) j = tripleAt pos j.
Proof.
  intro N. unfold tripleAt.
  rewrite !stepParticle_frame by lia. reflexivity.
Qed.

(** A step of particle [i], read on its own three slots. *)
Lemma stepParticle_own (cfg : Config) (mouse : float * float)
  (vel pos : Float32Array) (i : nat) :
  i * 3 + 2 < List.length pos ->
  tripleAt (stepParticle cfg mouse vel pos i) i
  = stepTriple cfg mouse (tripleAt vel i) (tripleAt pos i).
Proof.
  intro L.
  pose proof (drift_own vel i pos L) as D.
  pose proof (drift_length vel i pos) as DL.
  set (p1 := drift vel i pos) in *.
  assert (R : tripleAt (repel cfg mouse i p1) i
              = let '(x, y, z) := tripleAt p1 i in
                let dx := (x - fst mouse * 10)%float in
                let dy := (y - snd mouse * 10)%float in
                let distance := PrimFloat.sqrt (dx * dx + dy * dy) in
                let force := ((3 - distance) * mouseInfluence cfg)%float in
                ( (if lt distance 3
                   then Math_fround (x + (dx / distance) * force)%float
                   else x),
                  (if lt distance 3
                   then Math_fround (y + (dy / distance) * force)%float
                   else y),
                  z )).
  { unfold tripleAt, repel, distance, offsetX, offsetY. cbv zeta.
    destruct (lt _ _); array_reads; reflexivity. }
  pose proof (repel_length cfg mouse i p1) as RL.
  set (p2 := repel cfg mouse i p1) in *.
  assert (W : tripleAt (wrap i p2) i
              = let '(x, y, z) := tripleAt p2 i in
                (wrapCoord (-10) 10 x, wrapCoord (-10) 10 y,
                 wrapCoord (-5) 5 z)).
  { unfold tripleAt. rewrite wrap_by_slots.
    rewrite (wrapSlot_other (i * 3 + 2) (i * 3)) by lia.
    rewrite (wrapSlot_other (i * 3 + 1) (i * 3)) by lia.
    rewrite wrapSlot_same by lia.
    rewrite (wrapSlot_other (i * 3 + 2) (i * 3 + 1)) by lia.
    rewrite wrapSlot_same by (rewrite wrapSlot_length; lia).
    rewrite (wrapSlot_other (i * 3) (i * 3 + 1)) by lia.
    rewrite wrapSlot_same by (rewrite !wrapSlot_length; lia).
    rewrite (wrapSlot_other (i * 3 + 1) (i * 3 + 2)) by lia.
    rewrite (wrapSlot_other (i * 3) (i * 3 + 2)) by lia.
    reflexivity. }
  unfold stepParticle. fold p1. fold p2. rewrite W, R, D.
  reflexivity.
Qed.

End ParticleSteps.

Section ParticleUpdateLaws.

Import Js ParticleSystem ParticleSpec Sessions.
Open Scope nat_scope.


(** The loop over the particles [start .. start + n - 1]. *)
Lemma fold_stepParticle_triple (cfg : Config) (mouse : float * float)
  (vel : Float32Array) (n start : nat) (pos : Float32Array) (i : nat) :
  (start + n) * 3 <= List.length pos ->
  tripleAt (fold_left (stepParticle cfg mouse vel) (seq start n) pos) i
  = if (start <=? i) && (i <? start + n)
    then stepTriple cfg mouse (tripleAt vel i) (tripleAt pos i)
    else tripleAt pos i.
Proof.
  revert start pos. induction n as [| n IH]; intros start pos L.
  - cbn [seq fold_left].
    replace ((start <=? i) && (i <? start + 0)) with false; [reflexivity |].
    symmetry. apply andb_false_iff.
    destruct (Nat.leb_spec start i); [right | left; reflexivity].
    apply Nat.ltb_ge. lia.
  - cbn [seq fold_left].
    rewrite IH by (rewrite stepParticle_length; lia).
    destruct (Nat.eq_dec i start) as [E | N].
    + subst i.
      replace ((S start <=? start) && (start <? S start + n)) with false
        by (symmetry; apply andb_false_iff; left; apply Nat.leb_gt; lia).
      replace ((start <=? start) && (start <? start + S n)) with true
        by (symmetry; apply andb_true_iff; split;
            [apply Nat.leb_le | apply Nat.ltb_lt]; lia).
      apply stepParticle_own. lia.
    + rewrite stepParticle_other by lia.
      replace ((S start <=? i) && (i <? S start + n))
        with ((start <=? i) && (i <? start + S n)); [reflexivity |].
      destruct (Nat.leb_spec start i), (Nat.leb_spec (S start) i),
        (Nat.ltb_spec i (start + S n)), (Nat.ltb_spec i (S start + n));
        try reflexivity; lia.
Qed.

Lemma createParticleData_lengths (cfg : ConfigValue) (rand : nat -> float) :
  List.length (positions (createParticleData cfg rand))
  = arrayLength (particleCountOf cfg) 3
  /\ List.length (velocities (createParticleData cfg rand))
     = arrayLength (particleCountOf cfg) 3.
Proof.
  destruct cfg as [c | name]; [| split; reflexivity].
  unfold createParticleData. cbn [positions velocities particleCountOf
                                    arrayLength].
  assert (G : forall l : list nat,
             List.length (flat_map fst (map (particleInit c rand) l))
             = List.length l * 3
             /\ List.length (flat_map snd (map (particleInit c rand) l))
                = List.length l * 3).
  { induction l as [| i l [IHp IHv]]; [split; reflexivity |].
    cbn [map flat_map]. rewrite !length_app, IHp, IHv.
    split; reflexivity. }
  destruct (G (seq 0 (particleCount c))) as [P V].
  rewrite length_seq in P, V. split; assumption.
Qed.






(** X12.  [update] treats every particle on its own.  When the system has
    its geometry and its arrays, with three slots per particle, the new
    position of particle [i] is [stepTriple] of its old position and its
    velocity: floating movement, repulsion from the pointer, wrapping.  It
    does not depend on any other particle, nor on [deltaTime], and the
    pointer never enters the z coordinate.  With a built-in for the
    configuration there is no particle to move: the positions stay as
    they are. *)
Theorem update_particle_by_particle
  (deltaTime : float) (p : ParticleSystem.t) (g : Geometry)
  (d : ParticleData) :
  geometry p = Some g ->
  data p = Some d ->
  (forall (c : Config) (i : nat),
      config p = DeviceConfig c ->
      particleCount c * 3 <= List.length (positions d) ->
      i < particleCount c ->
      tripleAt (getParticlePositions (update deltaTime p)) i
      = stepTriple c (mousePosition p) (tripleAt (velocities d) i)
          (tripleAt (positions d) i))
  /\ (forall name : string,
         config p = BuiltIn name ->
         getParticlePositions (update deltaTime p) = positions d).
Proof.
  intros G D. split.
  - intros c i C L I. unfold getParticlePositions, update.
    rewrite G, D, C. cbn [data positions].
    rewrite fold_stepParticle_triple by (cbn; lia).
    replace ((0 <=? i) && (i <? 0 + particleCount c)) with true;
      [reflexivity |].
    symmetry. apply andb_true_iff. split; [reflexivity |].
    apply Nat.ltb_lt. lia.
  - intros name C. unfold getParticlePositions, update.
    rewrite G, D, C. reflexivity.
Qed.

Lemma update_particle_by_particle_witness :
  tripleAt
    (getParticlePositions (update 0.016 Samples.phoneParticles)) 1
  = stepTriple (mkConfig 500 0.8 2 0.0008 0.002 0.05)
      (mousePosition Samples.phoneParticles)
      (tripleAt (Samples.velocitiesOf Samples.phoneParticles) 1)
      (tripleAt (getParticlePositions Samples.phoneParticles) 1).
Proof.
  destruct (update_particle_by_particle 0.016%float Samples.phoneParticles
              (mkGeometry false)
              (createParticleData (config Samples.phoneParticles)
                 Samples.restingFirst))
    as [H _].
  - reflexivity.
  - reflexivity.
  - apply (H (mkConfig 500 0.8 2 0.0008 0.002 0.05) 1).
    + reflexivity.
    + rewrite (proj1 (createParticleData_lengths _ _)).
      apply Nat.leb_le. vm_compute. reflexivity.
    + apply Nat.ltb_lt. reflexivity.
Defined.

Lemma elementAt_In {A : Type} (l : list A) (k : float) (x : A) :
  elementAt l k = Some x -> In x l.
Proof.
  unfold elementAt. intro H.
  destruct (Prim2SF k) as [s | s | | s m e]; try discriminate.
  - apply nth_error_In in H. exact H.
  - destruct s; [discriminate |].
    destruct (0 <=? e)%Z.
    + destruct (_ <? _)%Z; [| discriminate].
      apply nth_error_In in H. exact H.
    + destruct (_ =? 0)%Z; [| discriminate].
      apply nth_error_In in H. exact H.
Qed.

Lemma stored_palette_colors (c : Color) :
  In c colorPalette ->
  isColorInPalette (red (storeColor c)) (green (storeColor c))
    (blue (storeColor c)) = true.
Proof.
  unfold colorPalette. cbn [In].
  intros [<- | [<- | [<- | [<- | []]]]]; vm_compute; reflexivity.
Qed.

(** X13.  Every colour the constructor stores is accepted by
    [isColorInPalette].  Whatever [Math.random()] draws, when the colour
    loop completes it has stored one colour per particle, each within the
    tolerance 0.01 of a palette entry after its rounding to binary32. *)
Theorem stored_colors_in_palette
  (rand : nat -> float) (first count : nat) (cs : list Color) :
  createColors rand first count = Some cs ->
  List.length cs = count
  /\ Forall
       (fun c => isColorInPalette (red c) (green c) (blue c) = true) cs.
Proof.
  revert first cs. induction count as [| n IH]; intros first cs H.
  - injection H as <-. split; [reflexivity | constructor].
  - cbn [createColors] in H.
    destruct (pickColor _) as [c |] eqn:P; [| discriminate].
    destruct (createColors rand (S first) n) as [r |] eqn:R;
      [| discriminate].
    injection H as <-. destruct (IH _ _ R) as [L F].
    split; [cbn; rewrite L; reflexivity |].
    constructor; [| exact F].
    apply stored_palette_colors.
    apply (elementAt_In _ _ _ P).
Qed.

Lemma stored_colors_in_palette_witness :
  exists cs,
    createColors Samples.restingFirst 0 3 = Some cs
    /\ Forall
         (fun c => isColorInPalette (red c) (green c) (blue c) = true) cs.
Proof.
  eexists. split; [vm_compute; reflexivity |].
  eapply (stored_colors_in_palette Samples.restingFirst 0 3).
  vm_compute. reflexivity.
Defined.

End ParticleUpdateLaws.

(* ================================================================== *)
(** ** AnimationManager: what a session keeps                           *)
(* ================================================================== *)

Section ManagerInvariants.

Import Js AnimationManager Sessions.

Lemma animate_idle (f : Frame) (a : t) :
  isRunning a = false -> animate f a = (a, Return tt).
Proof. intro R. unfold animate. rewrite R. reflexivity. Qed.

(** A frame of a running manager that has its monitor and renderer. *)
Lemma animate_running (f : Frame) (a : t) (pm : PerformanceMonitor.t)
  (r : Renderer) :
  isRunning a = true ->
  performanceMonitor a = Some pm ->
  renderer a = Some r ->
  animate f a
  = ( mkManager (options a) (scene a) (camera a) (renderer a)
        (isInitialized a) (isRunning a) (Some (requestId f))
        (match particleSystem a with
         | Some p =>
             Some (ParticleSystem.update
                     ((frameTime f - lastTime a) / 1000)%float p)
         | None => None
         end)
        (interactiveElements a)
        (Some (PerformanceMonitor.updateMetrics (metricsTime f)
                 (checkTime f) pm))
        (contentAnimations a) (frameCount a) (lastTime a) (fps a)
        (deviceType a),
      Return tt ).
Proof.
  intros R P Q. unfold animate. rewrite R. cbn [negb performanceMonitor].
  rewrite P. cbn [renderer]. rewrite Q. reflexivity.
Qed.

Lemma animate_sound (now : float) (f : Frame) (a : t) :
  sound now a ->
  sound now (fst (animate f a)) /\ snd (animate f a) = Return tt.
Proof.
  intros S. destruct (isRunning a) eqn:R.
  - destruct S as (RI & IC & F & C & L).
    destruct (IC (RI R)) as (Hr & Hs & Hc & Hp).
    destruct (performanceMonitor a) as [pm |] eqn:P; [| congruence].
    destruct (renderer a) as [r |] eqn:Q; [| congruence].
    rewrite (animate_running f a pm r R P Q). cbn [fst snd].
    split; [| reflexivity].
    unfold sound. cbn. rewrite Q.
    repeat split; auto; discriminate.
  - rewrite (animate_idle f a R). split; [exact S | reflexivity].
Qed.

Lemma start_sound (now : float) (f : Frame) (a : t) :
  sound now a ->
  sound now (fst (start f a)) /\ snd (start f a) <> Throw.
Proof.
  intros S. unfold start.
  destruct (isInitialized a) eqn:I; cbn [negb];
    [| split; [exact S | discriminate]].
  destruct (isRunning a) eqn:R; [split; [exact S | discriminate] |].
  assert (S' : sound now (setRunning true a)).
  { destruct S as (RI & IC & F & C & L). unfold sound. cbn.
    repeat split; auto; apply IC; exact I. }
  destruct (animate_sound now f (setRunning true a) S') as [A T].
  destruct (animate f (setRunning true a)) as [a' [u |]];
    cbn [fst snd] in *; [split; [exact A | discriminate] | discriminate].
Qed.

Lemma stop_sound (now : float) (a : t) : sound now a -> sound now (stop a).
Proof.
  intros (RI & IC & F & C & L). unfold sound, stop. cbn.
  repeat split; auto; try discriminate; apply IC; assumption.
Qed.

Lemma step_sound (now : float) (a : t) (x : Action) :
  sound now a -> sound now (step a x).
Proof.
  intro S. destruct x; cbn [step].
  - destruct S as (RI & IC & F & C & L). unfold init.
    destruct (negb _).
    + unfold sound. cbn. repeat split; auto; try discriminate;
        apply IC; assumption.
    + destruct (rendererThrows e).
      * unfold sound. cbn. repeat split; auto; try discriminate;
          apply IC; assumption.
      * unfold sound. cbn. repeat split; auto; discriminate.
  - apply start_sound. exact S.
  - apply stop_sound. exact S.
  - apply animate_sound. exact S.
  - unfold onAnimationVisibilityChange.
    destruct visible.
    + destruct (negb _); [apply start_sound |]; exact S.
    + destruct (isRunning a); [apply stop_sound |]; exact S.
  - pose proof (stop_sound now a S) as (RI & IC & F & C & L).
    unfold dispose, sound. cbn in *.
    repeat split; auto; discriminate.
Qed.

Lemma run_sound (now : float) (xs : list Action) (a : t) :
  sound now a -> sound now (run xs a).
Proof.
  revert a. induction xs as [| x xs IH]; intros a S; [exact S |].
  change (run (x :: xs) a) with (run xs (step a x)).
  apply IH. apply step_sound. exact S.
Qed.

Lemma new_sound (o : Options) (b : Browser) (now : float) :
  sound now (new o b now).
Proof. unfold sound, new. cbn. repeat split; discriminate. Qed.

(** X14.  No frame of a session throws.  After any session of a freshly
    constructed manager, [animate] returns normally and [start] does not
    throw: a running manager always has the renderer that the last
    statement of [animate] dereferences. *)
Theorem animate_never_throws
  (o : Options) (b : Browser) (now : float) (xs : list Action) (f : Frame) :
  snd (animate f (run xs (new o b now))) = Return tt
  /\ snd (start f (run xs (new o b now))) <> Throw
  /\ (isRunning (run xs (new o b now)) = true ->
      renderer (run xs (new o b now)) <> None
      /\ performanceMonitor (run xs (new o b now)) <> None).
Proof.
  pose proof (run_sound now xs _ (new_sound o b now)) as S.
  split; [apply (animate_sound now f _ S) |].
  split; [apply (start_sound now f _ S) |].
  intro R. destruct S as (RI & IC & _).
  destruct (IC (RI R)) as (Hr & _ & _ & Hp). auto.
Qed.

Lemma animate_never_throws_witness :
  renderer
    (run [ Init Samples.phoneInit; Start Samples.firstFrame ]
       (new defaultOptions Samples.phone 0))
  <> None.
Proof.
  apply (animate_never_throws defaultOptions Samples.phone 0%float
           [ Init Samples.phoneInit; Start Samples.firstFrame ]
           Samples.firstFrame).
  vm_compute. reflexivity.
Defined.

(** X15.  The legacy sampler never runs, and [lastTime] is never
    advanced.  After any session, [fps] is still 60, [frameCount] still 0
    and [lastTime] still the reading of the constructor; so the delta that
    a frame hands to [ParticleSystem.update] is the time since the manager
    was constructed, not the time since the previous frame. *)
Theorem frame_delta_counts_from_construction
  (o : Options) (b : Browser) (now : float) (xs : list Action) (f : Frame) :
  fps (run xs (new o b now)) = 60%float
  /\ frameCount (run xs (new o b now)) = 0%float
  /\ lastTime (run xs (new o b now)) = now
  /\ (forall p : ParticleSystem.t,
         isRunning (run xs (new o b now)) = true ->
         particleSystem (run xs (new o b now)) = Some p ->
         particleSystem (fst (animate f (run xs (new o b now))))
         = Some (ParticleSystem.update
                   ((frameTime f - now) / 1000)%float p)).
Proof.
  pose proof (run_sound now xs _ (new_sound o b now)) as S.
  destruct S as (RI & IC & F & C & L).
  repeat split; try assumption.
  intros p R P.
  destruct (IC (RI R)) as (Hr & _ & _ & Hp).
  destruct (performanceMonitor (run xs (new o b now))) as [pm |] eqn:M;
    [| congruence].
  destruct (renderer (run xs (new o b now))) as [r |] eqn:Q;
    [| congruence].
  rewrite (animate_running f _ pm r R M Q). cbn [fst particleSystem].
  rewrite P, L. reflexivity.
Qed.

Lemma frame_delta_counts_from_construction_witness :
  exists p,
    particleSystem
      (run [ Init Samples.phoneInit; Start Samples.firstFrame ]
         (new defaultOptions Samples.phone 0))
    = Some p
    /\ particleSystem
         (fst (animate Samples.secondFrame
                 (run [ Init Samples.phoneInit; Start Samples.firstFrame ]
                    (new defaultOptions Samples.phone 0))))
       = Some (ParticleSystem.update ((32 - 0) / 1000)%float p).
Proof.
  eexists. split.
  - vm_compute. reflexivity.
  - apply (frame_delta_counts_from_construction defaultOptions
             Samples.phone 0%float
             [ Init Samples.phoneInit; Start Samples.firstFrame ]
             Samples.secondFrame).
    + vm_compute. reflexivity.
    + vm_compute. reflexivity.
Defined.

End ManagerInvariants.

(* ================================================================== *)
(** ** AnimationManager: init, stop, dispose; index.js                  *)
(* ================================================================== *)

Section ManagerLifecycle.

Import Js AnimationManager Sessions.

Lemma manager_monitor_enabled (e : InitEnv) :
  PerformanceMonitor.shouldEnableAnimations
    (PerformanceMonitor.new
       (PerformanceMonitor.mkOptionsArg
          (Some [ ("desktop"%string, 60%float); ("tablet"%string, 45%float);
                  ("mobile"%string, 30%float) ])
          None None)
       (browser e) (monitorTime0 e) (monitorTime1 e))
  = PerformanceMonitor.detectWebGLSupport (browser e)
    && negb (PerformanceMonitor.detectReducedMotionPreference (browser e)).
Proof. apply new_enables. Qed.

Lemma init_result (e : InitEnv) (a : t) :
  snd (init e a)
  = PerformanceMonitor.detectWebGLSupport (browser e)
    && negb (PerformanceMonitor.detectReducedMotionPreference (browser e))
    && negb (rendererThrows e)
  /\ isRunning (fst (init e a)) = isRunning a
  /\ performanceMonitor (fst (init e a)) <> None
  /\ (snd (init e a) = true ->
      isInitialized (fst (init e a)) = true
      /\ scene (fst (init e a)) <> None
      /\ camera (fst (init e a)) <> None
      /\ renderer (fst (init e a)) <> None)
  /\ (snd (init e a) = false ->
      isInitialized (fst (init e a)) = isInitialized a
      /\ renderer (fst (init e a)) = renderer a
      /\ particleSystem (fst (init e a)) = particleSystem a).
Proof.
  unfold init. rewrite manager_monitor_enabled.
  destruct (PerformanceMonitor.detectWebGLSupport (browser e)
            && negb (PerformanceMonitor.detectReducedMotionPreference
                       (browser e))); cbn [negb andb].
  - destruct (rendererThrows e); cbn;
      repeat split; auto; discriminate.
  - cbn. repeat split; auto; discriminate.
Qed.

(** X16.  [init] succeeds exactly when the WebGL probe succeeds, reduced
    motion is not preferred and the renderer can be created.  On success
    the manager is initialised and has scene, camera, renderer and
    monitor; on failure [isInitialized], the renderer and the particle
    system are what they were, and [isRunning] is untouched either way. *)
Theorem init_outcome (e : InitEnv) (a : t) :
  snd (init e a)
  = PerformanceMonitor.detectWebGLSupport (browser e)
    && negb (PerformanceMonitor.detectReducedMotionPreference (browser e))
    && negb (rendererThrows e)
  /\ isRunning (fst (init e a)) = isRunning a
  /\ performanceMonitor (fst (init e a)) <> None
  /\ (snd (init e a) = true ->
      isInitialized (fst (init e a)) = true
      /\ scene (fst (init e a)) <> None
      /\ camera (fst (init e a)) <> None
      /\ renderer (fst (init e a)) <> None)
  /\ (snd (init e a) = false ->
      isInitialized (fst (init e a)) = isInitialized a
      /\ renderer (fst (init e a)) = renderer a
      /\ particleSystem (fst (init e a)) = particleSystem a).
Proof.
  destruct (init_result e a) as (A & B & C & D & E).
  repeat split; try assumption; try (apply D; assumption);
    apply E; assumption.
Qed.

Lemma init_outcome_witness :
  isInitialized
    (fst (init Samples.phoneInit (new defaultOptions Samples.phone 0)))
  = true.
Proof.
  apply (init_outcome Samples.phoneInit (new defaultOptions Samples.phone 0)).
  destruct (init_outcome Samples.phoneInit
              (new defaultOptions Samples.phone 0)) as [E _].
  rewrite E. reflexivity.
Defined.

(** A manager without components that is neither initialised nor
    running stays so under every action but [init]. *)
Lemma step_idle (a : t) (x : Action) :
  notInit x = true ->
  (isInitialized a = false /\ isRunning a = false
   /\ particleSystem a = None /\ performanceMonitor a = None
   /\ renderer a = None) ->
  isInitialized (step a x) = false /\ isRunning (step a x) = false
  /\ particleSystem (step a x) = None
  /\ performanceMonitor (step a x) = None
  /\ renderer (step a x) = None.
Proof.
  intros N (I & R & P & M & Q). destruct x; try discriminate; cbn [step].
  - unfold start. rewrite I. cbn. auto.
  - unfold stop. cbn. auto.
  - unfold animate. rewrite R. cbn. auto.
  - unfold onAnimationVisibilityChange, start. rewrite R, I.
    destruct visible; cbn; auto.
  - unfold dispose, stop. cbn. auto.
Qed.

(** X17.  A disposed manager stays inert until [init] succeeds again.
    [dispose] leaves the manager uninitialised, stopped and without
    particle system, monitor or renderer, and so it remains through any
    session of [start], [stop], [animate], visibility changes and further
    [dispose] calls: every [start] is refused and every frame callback
    that was still pending does nothing.  The same holds for a frame
    callback that arrives after [stop]. *)
Theorem disposed_manager_stays_inert
  (a : t) (xs : list Action) (f : Frame) :
  forallb notInit xs = true ->
  isInitialized (run xs (dispose a)) = false
  /\ isRunning (run xs (dispose a)) = false
  /\ particleSystem (run xs (dispose a)) = None
  /\ performanceMonitor (run xs (dispose a)) = None
  /\ renderer (run xs (dispose a)) = None
  /\ start f (run xs (dispose a)) = (run xs (dispose a), Return false)
  /\ animate f (run xs (dispose a)) = (run xs (dispose a), Return tt)
  /\ animate f (stop a) = (stop a, Return tt).
Proof.
  intro N.
  assert (G : forall (xs : list Action) (a : t),
             forallb notInit xs = true ->
             (isInitialized a = false /\ isRunning a = false
              /\ particleSystem a = None /\ performanceMonitor a = None
              /\ renderer a = None) ->
             isInitialized (run xs a) = false
             /\ isRunning (run xs a) = false
             /\ particleSystem (run xs a) = None
             /\ performanceMonitor (run xs a) = None
             /\ renderer (run xs a) = None).
  { clear. intro xs. induction xs as [| x xs IH]; intros a N H; [exact H |].
    cbn [forallb] in N. apply andb_true_iff in N. destruct N as [Nx Nxs].
    change (run (x :: xs) a) with (run xs (step a x)).
    apply IH; [exact Nxs |]. apply step_idle; assumption. }
  destruct (G xs (dispose a) N) as (I & R & P & M & Q).
  { unfold dispose, stop. cbn. auto. }
  repeat split; try assumption.
  - unfold start. rewrite I. reflexivity.
  - unfold animate. rewrite R. reflexivity.
Qed.

Lemma disposed_manager_stays_inert_witness :
  start Samples.secondFrame
    (run [ Start Samples.firstFrame; VisibilityChange true Samples.firstFrame ]
       (dispose (new defaultOptions Samples.phone 0)))
  = ( run [ Start Samples.firstFrame;
            VisibilityChange true Samples.firstFrame ]
        (dispose (new defaultOptions Samples.phone 0)),
      Return false ).
Proof.
  apply (disposed_manager_stays_inert (new defaultOptions Samples.phone 0)
           [ Start Samples.firstFrame;
             VisibilityChange true Samples.firstFrame ]
           Samples.secondFrame).
  reflexivity.
Defined.

Lemma update_config (deltaTime : float) (p : ParticleSystem.t) :
  ParticleSystem.config (ParticleSystem.update deltaTime p)
  = ParticleSystem.config p.
Proof.
  unfold ParticleSystem.update.
  destruct (ParticleSystem.geometry p); [| reflexivity].
  destruct (ParticleSystem.data p); reflexivity.
Qed.

(** What a frame does to the particle system and to the device class. *)
Lemma animate_particleSystem (f : Frame) (a : t) :
  particleSystem (fst (animate f a))
  = (if isRunning a
     then match particleSystem a with
          | Some p =>
              Some (ParticleSystem.update
                      ((frameTime f - lastTime a) / 1000)%float p)
          | None => None
          end
     else particleSystem a)
  /\ deviceType (fst (animate f a)) = deviceType a.
Proof.
  unfold animate, updatePerformanceMetrics.
  destruct (isRunning a); cbn; [| auto].
  destruct (performanceMonitor a); cbn.
  - destruct (renderer a); auto.
  - destruct (enablePerformanceMonitoring (options a)); cbn.
    + split_ifs; cbn; destruct (renderer a); auto.
    + destruct (renderer a); auto.
Qed.

Lemma animate_particles (f : Frame) (a : t) :
  particlesOfDevice a ->
  particlesOfDevice (fst (animate f a))
  /\ deviceType (fst (animate f a)) = deviceType a.
Proof.
  intro P. destruct (animate_particleSystem f a) as [E D].
  split; [| exact D].
  unfold particlesOfDevice in *. rewrite E, D.
  destruct (isRunning a); [| exact P].
  destruct (particleSystem a); [| exact I].
  rewrite update_config. exact P.
Qed.

Lemma start_particles (f : Frame) (a : t) :
  particlesOfDevice a ->
  particlesOfDevice (fst (start f a))
  /\ deviceType (fst (start f a)) = deviceType a.
Proof.
  intro P. unfold start.
  destruct (negb (isInitialized a)); [auto |].
  destruct (isRunning a); [auto |].
  pose proof (animate_particles f (setRunning true a) P) as Q.
  destruct (animate f (setRunning true a)) as [a' [u |]]; exact Q.
Qed.

Lemma step_particles (a : t) (x : Action) :
  particlesOfDevice a ->
  particlesOfDevice (step a x) /\ deviceType (step a x) = deviceType a.
Proof.
  intro P. destruct x; cbn [step].
  - unfold init.
    destruct (negb _); [auto |].
    destruct (rendererThrows e); [auto |].
    split; [| reflexivity].
    unfold particlesOfDevice in *. cbn.
    destruct (particlesThrow e); [exact P | reflexivity].
  - apply start_particles. exact P.
  - auto.
  - apply animate_particles. exact P.
  - unfold onAnimationVisibilityChange.
    destruct visible.
    + destruct (negb _); [apply start_particles; exact P | auto].
    + destruct (isRunning a); auto.
  - split; [exact I | reflexivity].
Qed.

(** X18.  The particle system never follows the quality tier.  After any
    session of a manager, the particle system it holds (if any) has the
    configuration of the manager's device class, the one [init] created
    it with: neither a downgrade of the monitor nor any other step changes
    its particle count. *)
Theorem particle_count_ignores_quality
  (o : Options) (b : Browser) (now : float) (xs : list Action)
  (p : ParticleSystem.t) :
  particleSystem (run xs (new o b now)) = Some p ->
  ParticleSystem.getDeviceConfig (detectDeviceType b)
  = ParticleSystem.config p
  /\ exists c : ParticleSystem.Config,
       In (detectDeviceType b, c) ParticleSystem.configs
       /\ ParticleSystem.config p = ParticleSystem.DeviceConfig c
       /\ ParticleSystem.getParticleCount p
          = Some (ParticleSystem.particleCount c).
Proof.
  assert (G : forall (xs : list Action) (a : t),
             particlesOfDevice a ->
             particlesOfDevice (run xs a)
             /\ deviceType (run xs a) = deviceType a).
  { clear. intro xs. induction xs as [| x xs IH]; intros a P; [auto |].
    change (run (x :: xs) a) with (run xs (step a x)).
    destruct (step_particles a x P) as [P' D].
    destruct (IH _ P') as [P'' D']. split; [exact P'' | congruence]. }
  intro H.
  destruct (G xs (new o b now) I) as [P D].
  unfold particlesOfDevice in P. rewrite H, D in P.
  change (deviceType (new o b now)) with (detectDeviceType b) in P.
  split; [exact P |].
  unfold ParticleSystem.getParticleCount. rewrite <- P.
  unfold detectDeviceType, ParticleSystem.configs.
  destruct (_ && _).
  - eexists. split; [right; right; left; reflexivity |].
    split; reflexivity.
  - destruct (_ || _).
    + eexists. split; [right; left; reflexivity |]. split; reflexivity.
    + eexists. split; [left; reflexivity |]. split; reflexivity.
Qed.

Lemma particle_count_ignores_quality_witness :
  exists p,
    particleSystem
      (run [ Init Samples.phoneInit; Start Samples.firstFrame ]
         (new defaultOptions Samples.phone 0))
    = Some p
    /\ ParticleSystem.getDeviceConfig (detectDeviceType Samples.phone)
       = ParticleSystem.config p.
Proof.
  eexists. split.
  - vm_compute. reflexivity.
  - apply (particle_count_ignores_quality defaultOptions Samples.phone
             0%float [ Init Samples.phoneInit; Start Samples.firstFrame ]).
    vm_compute. reflexivity.
Defined.

End ManagerLifecycle.

Section InitAnimations.

Import Js AnimationManager Index.

(** X19.  [initAnimations] never throws: the fallback it reads is never
    [null].  It returns a manager exactly when the WebGL probe succeeds,
    reduced motion is not preferred and the renderer can be created, and
    the manager it returns is initialised and running, with its first
    frame requested. *)
Theorem initAnimations_outcome
  (e : InitEnv) (probeTime0 probeTime1 managerTime : float) (f : Frame) :
  initAnimations e probeTime0 probeTime1 managerTime f <> Throw
  /\ ((exists a,
          initAnimations e probeTime0 probeTime1 managerTime f
          = Return (Some a))
      <-> PerformanceMonitor.detectWebGLSupport (browser e) = true
          /\ PerformanceMonitor.detectReducedMotionPreference (browser e)
             = false
          /\ rendererThrows e = false)
  /\ (forall a,
         initAnimations e probeTime0 probeTime1 managerTime f
         = Return (Some a) ->
         isInitialized a = true
         /\ isRunning a = true
         /\ animationId a = Some (requestId f)).
Proof.
  unfold initAnimations.
  pose proof (new_enables PerformanceMonitor.noOptions (browser e)
                probeTime0 probeTime1) as E.
  pose proof (new_fallback PerformanceMonitor.noOptions (browser e)
                probeTime0 probeTime1) as Fb.
  destruct (PerformanceMonitor.shouldEnableAnimations _) eqn:S;
    cbn [negb].
  - symmetry in E. apply andb_true_iff in E. destruct E as [W R].
    apply negb_true_iff in R.
    set (a0 := AnimationManager.new (mkOptions None true) (browser e)
                 managerTime).
    destruct (init_result e a0) as (O & Run & _ & Ok & _).
    rewrite W, R in O. cbn [negb andb] in O.
    destruct (init e a0) as [a1 ok] eqn:In. cbn [fst snd] in *.
    destruct ok.
    + destruct (Ok eq_refl) as (Ini & _ & _ & Ren).
      symmetry in O. apply negb_true_iff in O.
      assert (R1 : isRunning a1 = false) by (rewrite Run; reflexivity).
      unfold start. rewrite Ini, R1. cbn [negb].
      destruct (renderer a1) as [r |] eqn:Q; [| congruence].
      assert (A : exists a2,
                 animate f (setRunning true a1) = (a2, Return tt)
                 /\ isInitialized a2 = true /\ isRunning a2 = true
                 /\ animationId a2 = Some (requestId f)).
      { unfold animate. cbn [setRunning isRunning negb performanceMonitor
                               particleSystem renderer options].
        destruct (performanceMonitor a1).
        - cbn [renderer]. rewrite Q. eexists. split; [reflexivity |].
          cbn. auto.
        - destruct (enablePerformanceMonitoring (options a1)).
          + unfold updatePerformanceMetrics. cbn [lastTime frameCount].
            destruct (ge _ _); cbn [renderer]; rewrite Q;
              eexists; (split; [reflexivity | cbn; auto]).
          + cbn [renderer]. rewrite Q. eexists.
            split; [reflexivity | cbn; auto]. }
      destruct A as (a2 & A & I2 & R2 & Id2). rewrite A.
      split; [discriminate |]. split.
      * split; [auto | intros _; eauto].
      * intros a H. injection H as <-. auto.
    + symmetry in O. apply negb_false_iff in O.
      split; [discriminate |]. split.
      * split; [intros (a & H); discriminate |].
        intros (_ & _ & T). congruence.
      * intros a H. discriminate.
  - rewrite Fb.
    destruct (PerformanceMonitor.detectWebGLSupport (browser e)),
      (PerformanceMonitor.detectReducedMotionPreference (browser e));
      cbn [negb andb] in *; try discriminate;
      (split; [discriminate |]; split;
       [ split; [intros (a & H); discriminate
                | intros (W & R & _); discriminate]
       | intros a H; discriminate ]).
Qed.

Lemma initAnimations_outcome_witness :
  exists a,
    initAnimations Samples.phoneInit 0 0 1 Samples.firstFrame
    = Return (Some a).
Proof.
  apply (initAnimations_outcome Samples.phoneInit 0%float 0%float 1%float
           Samples.firstFrame).
  repeat split.
Defined.

End InitAnimations.

(* ================================================================== *)
(** ** Device classification: which inputs give which class            *)
(* ================================================================== *)

Section DeviceRules.

Import Js DeviceRegex.
Open Scope string_scope.

Lemma tabletPattern_cons (c : ascii) (r : string) :
  tabletPattern (String c r)
  = String.prefix "ipad" (String c r)
    || (String.prefix "android" (String c r)
        && negb (dotStarThen "mobile" (drop 7 (String c r))))
    || tabletPattern r.
Proof. reflexivity. Qed.

Lemma includes_cons (w : string) (c : ascii) (r : string) :
  includes w (String c r) = String.prefix w (String c r) || includes w r.
Proof. reflexivity. Qed.

Lemma ipad_is_tablet (s : string) :
  includes "ipad" s = true -> tabletPattern s = true.
Proof.
  induction s as [| c r IH]; intro H; [discriminate |].
  rewrite includes_cons in H. rewrite tabletPattern_cons.
  apply orb_true_iff in H. destruct H as [H | H].
  - rewrite H. reflexivity.
  - rewrite (IH H). apply orb_true_r.
Qed.

(** X20.  What decides the device class.  A user agent that contains
    'ipad' in any letter case is a tablet at every width; a viewport width
    from 768 to 1024 makes a tablet of every user agent, phones and
    desktop browsers included; 'mobile' is returned only when the mobile
    pattern matches, the tablet pattern does not and the width is outside
    that band; 'desktop' is returned exactly when neither pattern matches
    and the width is outside the band. *)
Theorem device_class_rules (b : Browser) :
  let ua := toLowerCase (userAgent b) in
  let band := ge (innerWidth b) 768 && le (innerWidth b) 1024 in
  (includes "ipad" ua = true ->
   PerformanceMonitor.detectDeviceType b = "tablet")
  /\ (band = true -> PerformanceMonitor.detectDeviceType b = "tablet")
  /\ (PerformanceMonitor.detectDeviceType b = "mobile" ->
      mobilePattern ua = true /\ tabletPattern ua = false /\ band = false)
  /\ (PerformanceMonitor.detectDeviceType b = "desktop" <->
      mobilePattern ua = false /\ tabletPattern ua = false /\ band = false).
Proof.
  intros ua band. unfold PerformanceMonitor.detectDeviceType.
  fold ua. fold band.
  split; [| split; [| split]].
  - intro H. rewrite (ipad_is_tablet ua H). cbn [orb negb].
    rewrite andb_false_r. reflexivity.
  - intro H. rewrite H, orb_true_r. cbn [negb].
    rewrite andb_false_r. reflexivity.
  - destruct (mobilePattern ua), (tabletPattern ua), band;
      cbn; intro H; try discriminate; auto.
  - destruct (mobilePattern ua), (tabletPattern ua), band; cbn;
      (split; [intro H; try discriminate; auto
              | intros (M & T & B); try discriminate; reflexivity]).
Qed.

Lemma device_class_rules_witness :
  PerformanceMonitor.detectDeviceType
    (mkBrowser Samples.phoneUA 800 (Context true true) None)
  = "tablet".
Proof.
  apply (device_class_rules
           (mkBrowser Samples.phoneUA 800 (Context true true) None)).
  reflexivity.
Defined.

End DeviceRules.

(* ================================================================== *)
(** ** InteractiveElements: what the hero object does                   *)
(* ================================================================== *)

Section HeroObject.

Import Js Interactive.
Open Scope float_scope.

Lemma step_heroInvariant (s : t) (e : Event) :
  heroInvariant s -> heroInvariant (step s e).
Proof.
  unfold heroInvariant. intros (H & G & N).
  destruct e; cbn [step];
    unfold update, handleMouseMove, handleHeroEnter, handleHeroLeave,
      dispose, withMouse, withHero;
    destruct (heroSection s) eqn:Es;
    destruct (heroObject s) as [h |] eqn:Eh;
    destruct (heroObjectGroup s) as [g |] eqn:Eg;
    split_ifs; cbn; rewrite ?Eh, ?Eg, ?Es; intuition (try discriminate).
Qed.

Lemma run_heroInvariant (es : list Event) (s : t) :
  heroInvariant s -> heroInvariant (run es s).
Proof.
  revert s. induction es as [| e es IH]; intros s H; [exact H |].
  change (run (e :: es) s) with (run es (step s e)).
  apply IH. apply step_heroInvariant. exact H.
Qed.

Lemma new_heroInvariant (deviceType : string) (heroFound : bool) :
  heroInvariant (Interactive.new deviceType heroFound).
Proof.
  unfold Interactive.new.
  destruct heroFound; unfold heroInvariant; cbn; auto.
  repeat split; auto. discriminate.
Qed.

(** Without a mesh, frames do nothing. *)
Lemma frames_without_hero (es : list Event) (s : t) :
  forallb isFrame es = true -> heroObject s = None -> run es s = s.
Proof.
  revert s. induction es as [| e es IH]; intros s F H; [reflexivity |].
  cbn [forallb] in F. apply andb_true_iff in F. destruct F as [Fe Fes].
  destruct e; try discriminate.
  change (run (Frame deltaTime :: es) s) with (run es (update deltaTime s)).
  assert (U : update deltaTime s = s)
    by (unfold update; rewrite H; reflexivity).
  rewrite U. apply IH; assumption.
Qed.

(** With the pointer at rest, frames do not move the group. *)
Lemma frames_at_rest (es : list Event) (s : t) :
  forallb isFrame es = true ->
  nonZero (fst (mousePosition s)) || nonZero (snd (mousePosition s))
  = false ->
  getCurrentPosition (run es s) = getCurrentPosition s.
Proof.
  revert s. induction es as [| e es IH]; intros s F Z; [reflexivity |].
  cbn [forallb] in F. apply andb_true_iff in F. destruct F as [Fe Fes].
  destruct e; try discriminate.
  change (run (Frame deltaTime :: es) s) with (run es (update deltaTime s)).
  assert (U : mousePosition (update deltaTime s) = mousePosition s
              /\ getCurrentPosition (update deltaTime s)
                 = getCurrentPosition s).
  { unfold update, getCurrentPosition.
    destruct (heroObject s); [| split; reflexivity].
    destruct (heroObjectGroup s) eqn:Eg;
      [| rewrite Eg; split; reflexivity].
    rewrite Z. cbn. split; reflexivity. }
  destruct U as [M P]. rewrite IH; [exact P | exact Fes |].
  rewrite M. exact Z.
Qed.

(** X21.  The mesh follows the rotation state and only the group moves.
    After any session of a constructed instance, whatever the device
    name, the mesh, while it exists, has the rotation held in
    [currentRotation] and sits at (3, 0, -2), and the group has not left
    the plane z = 0.  When the page has no hero section, no mesh is ever
    created and [getCurrentRotation] keeps answering (0, 0, 0). *)
Theorem hero_object_invariants
  (deviceType : string) (heroFound : bool) (es : list Event) :
  let s := Interactive.new deviceType heroFound in
  (forall h,
      heroObject (run es s) = Some h ->
      rotation h = currentRotation (run es s)
      /\ position h = mkVec3 3 0 (-2))
  /\ vz (getCurrentPosition (run es s)) = 0
  /\ (heroFound = false ->
      heroObject (run es s) = None
      /\ getCurrentRotation (run es s) = mkVec3 0 0 0).
Proof.
  intro s.
  pose proof (run_heroInvariant es s (new_heroInvariant _ _))
    as (H & G & S).
  split; [| split].
  - intros h E. rewrite E in H. exact H.
  - unfold getCurrentPosition.
    destruct (heroObjectGroup _); [exact G | reflexivity].
  - intro N.
    assert (R : forall (es : list Event) (s : t),
               heroSection s = false -> heroSection (run es s) = false).
    { clear. intro es. induction es as [| e es IH]; intros s S; [exact S |].
      change (run (e :: es) s) with (run es (step s e)).
      apply IH. destruct e; cbn [step];
        unfold update, handleMouseMove, handleHeroEnter, handleHeroLeave;
        rewrite ?S; cbn [negb]; try assumption; try reflexivity.
      destruct (heroObject s); [| exact S].
      destruct (heroObjectGroup s); cbn; auto. }
    assert (S0 : heroSection s = false).
    { unfold s, Interactive.new. rewrite N. reflexivity. }
    pose proof (S (R es s S0)) as Ho.
    split; [exact Ho |].
    unfold getCurrentRotation. rewrite Ho. reflexivity.
Qed.

Lemma hero_object_invariants_witness :
  vz (getCurrentPosition
        (run [ MouseMove 400 300 (mkRect 100 500 50 800 750 400);
               Frame 0.016; Frame 0.016 ]
           (Interactive.new "desktop" true)))
  = 0.
Proof.
  apply (hero_object_invariants "desktop" true).
Defined.

(** X22.  With the pointer at rest the group never moves.  A pointer
    move outside the hero rectangle changes nothing; when the pointer
    leaves the hero section the pointer position is reset to (0, 0), the
    parallax branch is skipped from then on, and through any number of
    frames the group stays where it was when the pointer left: it does
    not glide back to its origin. *)
Theorem group_freezes_when_pointer_leaves
  (deviceType : string) (heroFound : bool) (es : list Event) :
  let s0 := Interactive.new deviceType heroFound in
  (forall (clientX clientY : float) (rect : Rect),
      ge clientY (top rect) && le clientY (bottom rect)
      && ge clientX (left rect) && le clientX (right rect) = false ->
      handleMouseMove clientX clientY rect (run es s0) = run es s0)
  /\ (forall frames : list Event,
         forallb isFrame frames = true ->
         getCurrentPosition (run frames (handleHeroLeave (run es s0)))
         = getCurrentPosition (run es s0)).
Proof.
  intro s0.
  pose proof (run_heroInvariant es s0 (new_heroInvariant _ _))
    as (_ & _ & S).
  set (s := run es s0) in *. split.
  - intros clientX clientY rect O. unfold handleMouseMove.
    rewrite O. destruct (negb _); reflexivity.
  - intros frames F. unfold handleHeroLeave.
    destruct (heroSection s) eqn:Es; cbn [negb].
    + destruct (heroObject s) as [h |] eqn:H.
      * rewrite frames_at_rest; [reflexivity | exact F | reflexivity].
      * rewrite (frames_without_hero frames s F H). reflexivity.
    + rewrite (frames_without_hero frames s F (S eq_refl)). reflexivity.
Qed.

Lemma group_freezes_when_pointer_leaves_witness :
  getCurrentPosition
    (run [ Frame 0.016; Frame 0.016; Frame 0.016 ]
       (handleHeroLeave
          (run [ MouseMove 400 300 (mkRect 100 500 50 800 750 400);
                 Frame 0.016 ]
             (Interactive.new "desktop" true))))
  = getCurrentPosition
      (run [ MouseMove 400 300 (mkRect 100 500 50 800 750 400);
             Frame 0.016 ]
         (Interactive.new "desktop" true)).
Proof.
  apply (group_freezes_when_pointer_leaves "desktop" true).
  reflexivity.
Defined.

End HeroObject.
